(** * FileRouter: the file-system router of effect-bundler

    A shallow embedding of [src/FileRouter.ts] (the path-segment parser,
    the dispatch-pattern translation and the route builder [fromFiles]),
    followed by the properties of the specification that were checked
    against it.

    JavaScript strings are modelled by [string]; one [ascii] stands for one
    code unit, so the model covers the strings whose code units are below
    256.  Indices and lengths are [Z], as [s.length - 2] and the like may be
    negative before [substring] clamps them. *)

From Stdlib Require Import ZArith Ascii String List Bool Lia.
From stdpp Require Import base option gmap strings.

Local Open Scope Z_scope.

(** ** JavaScript string primitives used by the router *)

Module JsString.

Definition length (s : string) : Z := Z.of_nat (String.length s).

(** [s.startsWith(p)] *)
Definition startsWith (s p : string) : bool := String.prefix p s.

(** [s.substring(a, b)]: both indices are clamped to [0, s.length] and
    swapped when [a > b]. *)
Definition clamp (i len : Z) : Z := Z.max 0 (Z.min i len).

Definition substring (s : string) (a b : Z) : string :=
  let len := length s in
  let a' := clamp a len in
  let b' := clamp b len in
  let lo := Z.min a' b' in
  let hi := Z.max a' b' in
  String.substring (Z.to_nat lo) (Z.to_nat (hi - lo)) s.

(** [s.endsWith(p)] *)
Definition endsWith (s p : string) : bool :=
  (length p <=? length s)
  && String.eqb (substring s (length s - length p) (length s)) p.

(** [s.split(sep)] for a one-character separator; [split sep ""] is [[""]]. *)
Fixpoint split (sep : ascii) (s : string) : list string :=
  match s with
  | EmptyString => [EmptyString]
  | String c r =>
      if Ascii.eqb c sep then EmptyString :: split sep r
      else match split sep r with
           | h :: t => String c h :: t
           | [] => [String c EmptyString]
           end
  end.

(** [xs.join(sep)]; an [undefined] element (here [None]) contributes the
    empty string. *)
Definition join (sep : string) (xs : list (option string)) : string :=
  String.concat sep (map (default EmptyString) xs).

(** The character class [\w] without the [u] and [i] flags. *)
Definition isWordChar (c : ascii) : bool :=
  let n := Z.of_N (N_of_ascii c) in
  ((65 <=? n) && (n <=? 90)) || ((97 <=? n) && (n <=? 122))
  || ((48 <=? n) && (n <=? 57)) || (n =? 95).

(** [/^\w+$/.test(s)] *)
Fixpoint allWord (s : string) : bool :=
  match s with
  | EmptyString => true
  | String c r => isWordChar c && allWord r
  end.

Definition isWord (s : string) : bool :=
  match s with
  | EmptyString => false
  | String c r => isWordChar c && allWord r
  end.

(** The tail [\w*\]$] of the two bracket patterns: word characters up to
    a closing bracket that is the last character of the input. *)
Fixpoint wordsThenClose (s : string) : bool :=
  match s with
  | EmptyString => false
  | String c r =>
      (Ascii.eqb c "]" && String.eqb r EmptyString)
      || (isWordChar c && wordsThenClose r)
  end.

(** [\w+\]$] *)
Definition wordThenClose (s : string) : bool :=
  match s with
  | EmptyString => false
  | String c r => isWordChar c && wordsThenClose r
  end.

(** [/^\[\.{3}\w+\]$/.test(s)] *)
Definition matchesRest (s : string) : bool :=
  match s with
  | String "[" (String "." (String "." (String "." r))) => wordThenClose r
  | _ => false
  end.

(** [/^\[\w+\]$/.test(s)] *)
Definition matchesDynamic (s : string) : bool :=
  match s with
  | String "[" r => wordThenClose r
  | _ => false
  end.

(** [s.replace(/(^\/)|(\/$)/g, "")]: the first alternative can only match
    at index 0 and the second only at the last index, so one leading
    slash goes, and then one trailing slash of what is left. *)
Definition dropLeadingSlash (s : string) : string :=
  match s with
  | String "/" r => r
  | _ => s
  end.

Fixpoint dropTrailingSlash (s : string) : string :=
  match s with
  | EmptyString => EmptyString
  | String c r =>
      match r with
      | EmptyString => if Ascii.eqb c "/" then EmptyString else s
      | _ => String c (dropTrailingSlash r)
      end
  end.

Definition trimSlashes (s : string) : string :=
  dropTrailingSlash (dropLeadingSlash s).

(** [s.replace(/\/\//g, "/")]: one left-to-right pass over the
    non-overlapping occurrences of two slashes. *)
Fixpoint replaceDoubleSlash (s : string) : string :=
  match s with
  | EmptyString => EmptyString
  | String c r =>
      match r with
      | String c' r' =>
          if Ascii.eqb c "/" && Ascii.eqb c' "/"
          then String "/" (replaceDoubleSlash r')
          else String c (replaceDoubleSlash r)
      | EmptyString => s
      end
  end.

(** [hay.includes(needle)], as a proposition. *)
Definition includes (hay needle : string) : Prop :=
  exists pre post, hay = pre +:+ needle +:+ post.

(** Number of occurrences of a character. *)
Fixpoint count (c : ascii) (s : string) : nat :=
  match s with
  | EmptyString => 0%nat
  | String d r => ((if Ascii.eqb d c then 1 else 0) + count c r)%nat
  end.

End JsString.

(** ** JavaScript values

    The values a module can export and a function can return or raise.
    Numbers enter the router only through their truthiness; a function
    through the outcome of calling it without arguments; an object through
    its data properties (accessors and proxies are not modelled); an error
    object through its [message], which
    can be any value.  Members inherited from the built-in prototypes are
    not modelled (none of them is named [pipe]). *)

Inductive JsNumber : Type :=
  | NaN
  | Finite (n : Z).

#[warnings="-register-all"]
Inductive Value : Type :=
  | VUndefined
  | VNull
  | VBoolean (b : bool)
  | VNumber (n : JsNumber)
  | VString (s : string)
  | VFunction (body : Outcome)
  | VError (message : Value)
  | VObject (props : gmap string Value)
with Outcome : Type :=
  | Returns (v : Value)
  | Raises (v : Value).

(** What JavaScript code can throw: the engine's [TypeError] for a member
    access on [null] or [undefined], or a value raised by user code. *)
Inductive Thrown : Type :=
  | TypeError
  | Raised (v : Value).

(** Completion of an expression that does not return normally in every
    case. *)
Inductive Completion (A : Type) : Type :=
  | Normal (a : A)
  | Throw (e : Thrown).
Arguments Normal {A} a.
Arguments Throw {A} e.

Module Js.

(** [typeof v] *)
Definition typeof (v : Value) : string :=
  match v with
  | VUndefined => "undefined"
  | VNull => "object"
  | VBoolean _ => "boolean"
  | VNumber _ => "number"
  | VString _ => "string"
  | VFunction _ => "function"
  | VError _ => "object"
  | VObject _ => "object"
  end.

(** [ToBoolean]: what [!v], [v && ...] and [if (v)] test. *)
Definition truthy (v : Value) : bool :=
  match v with
  | VUndefined => false
  | VNull => false
  | VBoolean b => b
  | VNumber NaN => false
  | VNumber (Finite n) => negb (n =? 0)
  | VString s => negb (String.eqb s "")
  | VFunction _ => true
  | VError _ => true
  | VObject _ => true
  end.

(** [v[key]]: a member access on [undefined] or [null] throws. *)
Definition get (v : Value) (key : string) : Completion Value :=
  match v with
  | VUndefined => Throw TypeError
  | VNull => Throw TypeError
  | VObject props => Normal (default VUndefined (props !! key))
  | VError message =>
      Normal (if String.eqb key "message" then message else VUndefined)
  | _ => Normal VUndefined
  end.

(** [f()] for a value [f] with [typeof f === "function"]. *)
Definition call (f : Value) : Outcome :=
  match f with
  | VFunction body => body
  | _ => Raises (VError (VString "not a function"))
  end.

(** [xs.includes(key)] on an array of strings. *)
Definition includes (xs : list string) (key : string) : bool :=
  existsb (String.eqb key) xs.

End Js.

(** The exports of a loaded module: [module[name]] is [undefined] for a
    name that is not exported. *)
Definition export (module : gmap string Value) (name : string) : Value :=
  default VUndefined (module !! name).

(** [Object.keys(module)] *)
Definition Object_keys (module : gmap string Value) : list string :=
  (map_to_list module).*1.

(** ** Data model *)

Inductive PathSegment : Type :=
  | Literal (text : string)
  | DynamicParam (text : string)
  | OptionalParam (text : string)
  | RestParam (text : string).

Inductive Extension : Type := tsx | jsx | ts | js.

Inductive HandleSegment : Type :=
  | ServerHandle (extension : Extension)
  | PageHandle (extension : Extension).

Inductive Segment : Type :=
  | Path (p : PathSegment)
  | Handle (h : HandleSegment).

Definition Route : Type := list Segment.

(** The [type] tag of a segment object. *)
Definition Segment_type (s : Segment) : string :=
  match s with
  | Path (Literal _) => "Literal"
  | Path (DynamicParam _) => "DynamicParam"
  | Path (OptionalParam _) => "OptionalParam"
  | Path (RestParam _) => "RestParam"
  | Handle (ServerHandle _) => "ServerHandle"
  | Handle (PageHandle _) => "PageHandle"
  end.

Definition Extension_text (e : Extension) : string :=
  match e with tsx => "tsx" | jsx => "jsx" | ts => "ts" | js => "js" end.

(** [["ts", "js", "tsx", "jsx"].includes(ext)], keeping the recognised
    extension. *)
Definition Extension_of_string (s : string) : option Extension :=
  if String.eqb s "ts" then Some ts
  else if String.eqb s "js" then Some js
  else if String.eqb s "tsx" then Some tsx
  else if String.eqb s "jsx" then Some jsx
  else None.

(** ** The segment parser *)

(** [seg === null] *)
Definition isNull {A : Type} (o : option A) : bool :=
  match o with
  | None => true
  | Some _ => false
  end.

(** The callback of [segmentStrings.map] in [extractSegments]; [None] is
    the [null] of a component that is no segment. *)
Definition classify (s : string) : option Segment :=
  if JsString.startsWith s "+" then
    match JsString.split "." s with
    | [name; ext] =>
        match Extension_of_string ext with
        | None => None
        | Some e =>
            if String.eqb name "+server" then Some (Handle (ServerHandle e))
            else if String.eqb name "+page" then Some (Handle (PageHandle e))
            else None
        end
    | _ => None
    end
  else
    let optional :=
      if JsString.startsWith s "[[" && JsString.endsWith s "]]"
         && (5 <=? JsString.length s)
      then
        let name := JsString.substring s 2 (JsString.length s - 2) in
        if negb (String.eqb name "") && negb (JsString.startsWith name "...")
        then Some (Path (OptionalParam name))
        else None
      else None in
    match optional with
    | Some seg => Some seg
    | None =>
        let rest :=
          if JsString.matchesRest s then
            let name := JsString.substring s 4 (JsString.length s - 1) in
            if negb (String.eqb name "") then Some (Path (RestParam s))
            else None
          else None in
        match rest with
        | Some seg => Some seg
        | None =>
            let dynamic :=
              if JsString.matchesDynamic s then
                let name := JsString.substring s 1 (JsString.length s - 1) in
                if negb (String.eqb name "")
                then Some (Path (DynamicParam name))
                else None
              else None in
            match dynamic with
            | Some seg => Some seg
            | None =>
                if JsString.isWord s then Some (Path (Literal s)) else None
            end
        end
    end.

(** The components the parser classifies:
    [trimmedPath.split("/").filter(s => s !== "")]. *)
Definition segmentStrings (path : string) : list string :=
  List.filter (fun s => negb (String.eqb s ""))
    (JsString.split "/" (JsString.trimSlashes path)).

Definition extractSegments (path : string) : option (list Segment) :=
  let trimmedPath := JsString.trimSlashes path in
  if String.eqb trimmedPath "" then Some []
  else
    let segmentStrings := segmentStrings path in
    if (Z.of_nat (List.length segmentStrings) =? 0) then Some []
    else
      let segments := map classify segmentStrings in
      if existsb isNull segments then None
      else Some (omap id segments).

(** ** Route extraction *)

(** [segs.at(-1)] *)
Definition at_last {A : Type} (l : list A) : option A := last l.

(** [extractRoute]: the member access [segs.at] is evaluated before the
    test [!segs], so a rejected parse ([null]) throws. *)
Definition extractRoute (path : string) : Completion (option Route) :=
  match extractSegments path with
  | None => Throw TypeError
  | Some segs =>
      let lastSegmentType := Segment_type <$> at_last segs in
      if (Z.of_nat (List.length segs) =? 0)
         || (negb (bool_decide (lastSegmentType = Some "ServerHandle"))
             && negb (bool_decide (lastSegmentType = Some "PageHandle")))
      then Normal None
      else Normal (Some segs)
  end.

(** ** Dispatch patterns *)

(** The callback of [segments.map] in [segmentsToPath].  The [switch] has
    no case for a handle segment, which the cast in [fromFiles] lets
    through: the callback then returns [undefined] ([None]). *)
Definition patternComponent (segment : Segment) : option string :=
  match segment with
  | Path (Literal text) => Some text
  | Path (DynamicParam text) => Some (":" +:+ text)
  | Path (OptionalParam text) => Some (":" +:+ text +:+ "?")
  | Path (RestParam text) =>
      let paramName := JsString.substring text 4 (JsString.length text - 1) in
      Some (":" +:+ paramName +:+ "*")
  | Handle _ => None
  end.

Definition segmentsToPath (segments : list Segment) : string :=
  if Z.of_nat (List.length segments) =? 0 then "/"
  else
    let path := "/" +:+ JsString.join "/" (map patternComponent segments) in
    JsString.replaceDoubleSlash path.

(** ** The router under construction *)

Inductive Method : Type := GET | POST | PUT | DELETE | PATCH | OPTIONS | HEAD.

(** A method-specific entry, or the catch-all of [HttpRouter.all]. *)
Inductive RouteMethod : Type :=
  | Only (m : Method)
  | All.

(** [HttpServerResponse.text(body)]

    Modelled from the spec: the HTTP primitives are an external capability;
    a text response is a plain-text body with a success status. *)
Record Response : Type := {
  status : Z;
  contentType : string;
  body : string
}.

Definition HttpServerResponse_text (content : string) : Response :=
  {| status := 200; contentType := "text/plain"; body := content |}.

(** A handler is an exported value taken as it is, or the
    [Effect.succeed(response)] built for a page. *)
Inductive Handler : Type :=
  | Exported (v : Value)
  | Succeed (r : Response).

Record RouteEntry : Type := {
  method : RouteMethod;
  path : string;
  handler : Handler
}.

(** Modelled from the spec: the router assembler is an external capability
    that accepts (method, dispatch pattern, handler) and (any method,
    dispatch pattern, handler) and returns the extended router; the router
    is the sequence of its registrations, oldest first. *)
Definition HttpRouter : Type := list RouteEntry.

Module HttpRouter.

Definition empty : HttpRouter := [].

Definition route (m : RouteMethod) (router : HttpRouter) (path : string)
    (h : Handler) : HttpRouter :=
  router ++ [{| method := m; path := path; handler := h |}].

Definition get := route (Only GET).
Definition post := route (Only POST).
Definition put := route (Only PUT).
Definition delete := route (Only DELETE).
Definition patch := route (Only PATCH).
Definition options := route (Only OPTIONS).
Definition head := route (Only HEAD).
Definition all := route All.




End HttpRouter.

(** ** The route builder *)

Record PlatformError : Type := { reason : string }.

Inductive BuildError : Type :=
  | FilesystemError (e : PlatformError)
  | InvalidModuleError (message : string)
  | ImportError (error : Value) (filePath : string).

(** How the effect returned by [fromFiles] ends: with a value, with a
    failure of its error channel, or with a defect (an exception thrown
    inside the generator). *)
Inductive Exit (A : Type) : Type :=
  | Success (a : A)
  | Failure (e : BuildError)
  | Die (defect : Thrown).
Arguments Success {A} a.
Arguments Failure {A} e.
Arguments Die {A} defect.

(** What [fromFiles] takes from its environment. *)
Record Platform : Type := {
  (** [NPath.resolve] *)
  resolve : string -> string;
  (** [NPath.join] *)
  join : string -> string -> string;
  (** [fs.readDirectory(dir, { recursive: true })] *)
  readDirectory : string -> PlatformError + list string;
  (** [import(absoluteFilePath)]: the rejection value or the module *)
  import : string -> Value + gmap string Value;
  (** [String(v)]: the conversion runs the code of the value
      ([toString], [valueOf]) and can throw *)
  String_ : Value -> Completion string;
  (** the conversion of a value that is no string in a template literal;
      it can throw as well *)
  ToString : Value -> Completion string
}.

Definition httpMethods : list string :=
  ["GET"; "POST"; "PUT"; "DELETE"; "PATCH"; "OPTIONS"; "HEAD"].

(** [v && (typeof v === 'function' || (v && typeof v.pipe === 'function'))]
    as a condition. *)
Definition isHandler (v : Value) : Completion bool :=
  if Js.truthy v then
    if String.eqb (Js.typeof v) "function" then Normal true
    else if Js.truthy v then
      match Js.get v "pipe" with
      | Normal pipe => Normal (String.eqb (Js.typeof pipe) "function")
      | Throw e => Throw e
      end
    else Normal false
  else Normal false.

(** The [switch (method)] of the registration loop. *)
Definition register (method : string) (router : HttpRouter) (httpPath : string)
    (h : Handler) : HttpRouter :=
  if String.eqb method "GET" then HttpRouter.get router httpPath h
  else if String.eqb method "POST" then HttpRouter.post router httpPath h
  else if String.eqb method "PUT" then HttpRouter.put router httpPath h
  else if String.eqb method "DELETE" then HttpRouter.delete router httpPath h
  else if String.eqb method "PATCH" then HttpRouter.patch router httpPath h
  else if String.eqb method "OPTIONS" then HttpRouter.options router httpPath h
  else if String.eqb method "HEAD" then HttpRouter.head router httpPath h
  else router.

(** [for (const method of httpMethods) { ... }]: the state is the router
    and the flag [foundMethodSpecificHandler]. *)
Fixpoint registerMethods (module : gmap string Value) (httpPath : string)
    (methods : list string) (router : HttpRouter) (found : bool)
    : Completion (HttpRouter * bool) :=
  match methods with
  | [] => Normal (router, found)
  | method :: rest =>
      let handlerCandidate := export module method in
      match isHandler handlerCandidate with
      | Throw e => Throw e
      | Normal true =>
          registerMethods module httpPath rest
            (register method router httpPath (Exported handlerCandidate)) true
      | Normal false => registerMethods module httpPath rest router found
      end
  end.

Section Builder.

Context (platform : Platform).

(** The [ServerHandle] branch. *)
Definition serverHandle (module : gmap string Value) (httpPath : string)
    (absoluteFilePath : string) (router : HttpRouter) : Exit HttpRouter :=
  let defaultExport := export module "default" in
  match isHandler defaultExport with
  | Throw e => Die e
  | Normal hasPotentiallyValidDefaultExport =>
      match registerMethods module httpPath httpMethods router false with
      | Throw e => Die e
      | Normal (router, foundMethodSpecificHandler) =>
          if negb foundMethodSpecificHandler then
            if hasPotentiallyValidDefaultExport then
              Success (HttpRouter.all router httpPath (Exported defaultExport))
            else
              Failure (InvalidModuleError
                ("No valid route handlers (method-specific functions or default export) found in "
                 +:+ absoluteFilePath))
          else Success router
      end
  end.

(** The [PageHandle] branch.  A failure yielded inside the [try] block is
    not an exception: the generator is not resumed, so the [catch] clause
    sees only what the call of the default export raises.  There the
    template literal holds [e instanceof Error ? e.message : String(e)]:
    the message of an error object, converted unless it is a string, and
    the string conversion of anything else.  Neither conversion is
    guarded: when it throws, the exception leaves the generator and the
    build ends with a defect. *)
Definition pageHandle (module : gmap string Value) (httpPath : string)
    (absoluteFilePath : string) (router : HttpRouter) : Exit HttpRouter :=
  let defaultExport := export module "default" in
  let registerPage (content : string) :=
    let pageHandlerEffect := Succeed (HttpServerResponse_text content) in
    Success (HttpRouter.get router httpPath pageHandlerEffect) in
  if String.eqb (Js.typeof defaultExport) "function" then
    match Js.call defaultExport with
    | Returns content =>
        (* typeof content !== 'string' *)
        match content with
        | VString content => registerPage content
        | _ =>
            Failure (InvalidModuleError
              ("Default export function in " +:+ absoluteFilePath
               +:+ " for +page.tsx did not return a string."))
        end
    | Raises e =>
        let description :=
          match e with
          | VError message =>
              match message with
              | VString text => Normal text
              | _ => ToString platform message
              end
          | _ => String_ platform e
          end in
        match description with
        | Normal text =>
            Failure (InvalidModuleError
              ("Error executing default export function in " +:+ absoluteFilePath
               +:+ " for +page.tsx: " +:+ text))
        | Throw thrown => Die thrown
        end
    end
  else
    (* typeof module.default === "string" *)
    match defaultExport with
    | VString content => registerPage content
    | _ =>
        Failure (InvalidModuleError
          ("Default export in " +:+ absoluteFilePath
           +:+ " for +page.tsx is not a string or a function returning a string."))
    end.

(** What the loop does with a loaded module: the broad early check, the
    check of a page's default export, then the branch on the handle. *)
Definition validateAndRegister (handleSegment : Segment)
    (module : gmap string Value) (httpPath : string)
    (absoluteFilePath : string) (router : HttpRouter) : Exit HttpRouter :=
  let missingDefault :=
    InvalidModuleError
      ("Missing default export in " +:+ absoluteFilePath +:+ " for +page.tsx") in
  let isPage := String.eqb (Segment_type handleSegment) "PageHandle" in
  let noDefault := negb (Js.truthy (export module "default")) in
  let branch :=
    if String.eqb (Segment_type handleSegment) "ServerHandle"
    then serverHandle module httpPath absoluteFilePath router
    else pageHandle module httpPath absoluteFilePath router in
  let detailed := if isPage && noDefault then Failure missingDefault else branch in
  if noDefault && negb (existsb (Js.includes httpMethods) (Object_keys module))
  then if isPage && noDefault then Failure missingDefault else detailed
  else detailed.

(** The body of [for (const relativePath of files)]. *)
Definition processFile (absoluteScanDir : string) (router : HttpRouter)
    (relativePath : string) : Exit HttpRouter :=
  match extractRoute relativePath with
  | Throw e => Die e
  | Normal None => Success router
  | Normal (Some routeSegments) =>
      match at_last routeSegments with
      | None => Success router
      | Some handleSegment =>
          let pathSegments := removelast routeSegments in
          let httpPath := segmentsToPath pathSegments in
          let absoluteFilePath := join platform absoluteScanDir relativePath in
          match import platform absoluteFilePath with
          | inl error => Failure (ImportError error absoluteFilePath)
          | inr module =>
              validateAndRegister handleSegment module httpPath
                absoluteFilePath router
          end
      end
  end.

Fixpoint processFiles (absoluteScanDir : string) (router : HttpRouter)
    (files : list string) : Exit HttpRouter :=
  match files with
  | [] => Success router
  | relativePath :: rest =>
      match processFile absoluteScanDir router relativePath with
      | Success router => processFiles absoluteScanDir router rest
      | Failure e => Failure e
      | Die d => Die d
      end
  end.

Definition fromFiles (scanDir : string) : Exit HttpRouter :=
  let router := HttpRouter.empty in
  let absoluteScanDir := resolve platform scanDir in
  match readDirectory platform absoluteScanDir with
  | inl e => Failure (FilesystemError e)
  | inr files => processFiles absoluteScanDir router files
  end.

End Builder.

(** ** Walking a directory for its routes *)

(** [walkRoutesDirectory], consumed to its end: the routes it yields, in
    order, and how it ends.  The loop yields the route of each listed path
    that has one; an exception of [extractRoute] ends the generator at
    that path. *)
Fixpoint walkPaths (paths : list string) : list Route * Completion unit :=
  match paths with
  | [] => ([], Normal tt)
  | path :: rest =>
      match extractRoute path with
      | Throw e => ([], Throw e)
      | Normal None => walkPaths rest
      | Normal (Some segs) =>
          let (routes, completion) := walkPaths rest in
          (segs :: routes, completion)
      end
  end.

(** [readdir] is [NFSp.readdir(dir, { recursive: true })]: the value the
    promise rejects with, or the listing. *)
Definition walkRoutesDirectory (readdir : string -> Value + list string)
    (dir : string) : list Route * Completion unit :=
  match readdir dir with
  | inl e => ([], Throw (Raised e))
  | inr paths => walkPaths paths
  end.

(** ** A concrete platform for examples *)

Module Fixture.

(** A directory tree given by its listing, with the outcome of importing
    each file; paths are joined with a slash. *)
Definition joinPath (dir rel : string) : string := dir +:+ "/" +:+ rel.

Fixpoint importFrom (files : list (string * (Value + gmap string Value)))
    (dir abs : string) : Value + gmap string Value :=
  match files with
  | [] => inl (VError (VString "Cannot find module"))
  | (rel, outcome) :: rest =>
      if String.eqb (joinPath dir rel) abs then outcome
      else importFrom rest dir abs
  end.

(** The string conversion of the example values: an object with a
    [toString] method of its own answers with what the method returns or
    raises, any other value as a plain object does. *)
Definition stringOf (v : Value) : Completion string :=
  match v with
  | VObject props =>
      match props !! "toString" with
      | Some (VFunction (Returns (VString text))) => Normal text
      | Some (VFunction (Raises e)) => Throw (Raised e)
      | _ => Normal "[object Object]"
      end
  | _ => Normal "[object Object]"
  end.

Definition platform (dir : string)
    (files : list (string * (Value + gmap string Value))) : Platform :=
  {| resolve := fun d => d;
     join := joinPath;
     readDirectory := fun d =>
       if String.eqb d dir then inr (files.*1)
       else inl {| reason := "NotFound" |};
     import := importFrom files dir;
     String_ := stringOf;
     ToString := stringOf |}.

(** An [Effect] value: an object with a [pipe] method. *)
Definition effect : Value :=
  VObject {[ "pipe" := VFunction (Returns VUndefined) ]}.

(** The modules of the tests of [fromFiles]: valid [GET] and [POST] next
    to a default export; a [GET] that is a string next to a valid [POST]
    and a default export; a [GET] that is a string next to a default
    export only. *)
Definition methodsModule : gmap string Value :=
  <["GET" := effect]> (<["POST" := effect]> {["default" := effect]}).

Definition badGetWithPost : gmap string Value :=
  <["GET" := VString "not an effect"]>
    (<["POST" := effect]> {["default" := effect]}).


(** Page modules: a string, the empty string, and a function that
    returns an object. *)
Definition page (content : string) : gmap string Value :=
  {["default" := VString content]}.

Definition emptyPage : gmap string Value := page "".

Definition objectPage : gmap string Value :=
  {["default" := VFunction (Returns (VObject ∅))]}.

(** More modules: a default export that is an object without [pipe], a
    function that returns the empty string, and [badGetWithPost] with an
    export more. *)
Definition objectDefault : gmap string Value :=
  {["default" := VObject {["foo" := VString "bar"]}]}.

(** A page function that raises an object whose [toString] raises. *)
Definition unprintable : Value :=
  VObject {["toString" := VFunction (Raises (VError (VString "no text")))]}.

Definition unprintablePage : gmap string Value :=
  {["default" := VFunction (Raises unprintable)]}.

Definition blankFunctionPage : gmap string Value :=
  {["default" := VFunction (Returns (VString ""))]}.

Definition badGetWithPostAndMore : gmap string Value :=
  <["value" := VNumber (Finite 123)]> badGetWithPost.

End Fixture.

(** * Notions of the specification *)

(** What the specification calls a Route: path segments followed by exactly
    one handle segment. *)
Definition pathsThenHandle (route : Route) : Prop :=
  exists (ps : list PathSegment) (h : HandleSegment), route = map Path ps ++ [Handle h].

(** A valid handler, in the words of the specification: callable, or
    bearing a callable [pipe] property. *)
Definition callable (v : Value) : bool :=
  match v with
  | VFunction _ => true
  | _ => false
  end.

Definition bearsCallablePipe (v : Value) : bool :=
  match v with
  | VObject props =>
      match props !! "pipe" with
      | Some pipe => callable pipe
      | None => false
      end
  | _ => false
  end.

Definition validHandler (v : Value) : bool := callable v || bearsCallablePipe v.

Definition Method_name (m : Method) : string :=
  match m with
  | GET => "GET" | POST => "POST" | PUT => "PUT" | DELETE => "DELETE"
  | PATCH => "PATCH" | OPTIONS => "OPTIONS" | HEAD => "HEAD"
  end.

Definition allMethods : list Method := [GET; POST; PUT; DELETE; PATCH; OPTIONS; HEAD].

(** The method-specific entries the specification asks for: one for each
    method whose export is a valid handler, on the route's pattern. *)
Definition methodEntry (module : gmap string Value) (pattern : string)
    (m : Method) : RouteEntry :=
  {| method := Only m; path := pattern;
     handler := Exported (export module (Method_name m)) |}.

Definition methodEntries (module : gmap string Value) (pattern : string)
    (methods : list Method) : list RouteEntry :=
  map (methodEntry module pattern)
    (List.filter (fun m => validHandler (export module (Method_name m))) methods).

Definition catchAllEntry (module : gmap string Value) (pattern : string)
    : RouteEntry :=
  {| method := All; path := pattern; handler := Exported (export module "default") |}.

(** The entry a page registers: GET only, answering with the content as a
    plain-text body and a success status. *)
Definition pageEntry (pattern content : string) : RouteEntry :=
  {| method := Only GET; path := pattern;
     handler := Succeed {| status := 200; contentType := "text/plain"; body := content |} |}.


(** The route of a path that has one. *)
Definition routeOf (path : string) : option Route :=
  match extractRoute path with
  | Normal (Some route) => Some route
  | _ => None
  end.

(** The all-or-nothing classification of a list of components. *)
Definition classifyAll (components : list string) : option (list Segment) :=
  if existsb isNull (map classify components) then None
  else Some (omap id (map classify components)).

(** The file-name token of a segment. *)
Definition PathSegment_token (p : PathSegment) : string :=
  match p with
  | Literal text => text
  | DynamicParam name => "[" +:+ name +:+ "]"
  | OptionalParam name => "[[" +:+ name +:+ "]]"
  | RestParam raw => raw
  end.

Definition HandleSegment_token (h : HandleSegment) : string :=
  match h with
  | ServerHandle e => "+server." +:+ Extension_text e
  | PageHandle e => "+page." +:+ Extension_text e
  end.

Definition Segment_token (seg : Segment) : string :=
  match seg with
  | Path p => PathSegment_token p
  | Handle h => HandleSegment_token h
  end.

(** The segments that have a token: a literal is a word, so is the name of
    a dynamic parameter, a rest parameter keeps its token around a word,
    and the name of an optional parameter is any text that is not empty,
    does not begin with three dots and holds no slash. *)
Definition wellFormed (seg : Segment) : Prop :=
  match seg with
  | Path (Literal text) => JsString.isWord text = true
  | Path (DynamicParam name) => JsString.isWord name = true
  | Path (OptionalParam name) =>
      name <> "" /\ JsString.startsWith name "..." = false
      /\ JsString.count "/" name = 0%nat
  | Path (RestParam raw) =>
      exists name, raw = "[..." +:+ name +:+ "]" /\ JsString.isWord name = true
  | Handle _ => True
  end.

(** The description of a raised value in the message of the [catch]
    clause. *)
Definition description (platform : Platform) (raised : Value) : Completion string :=
  match raised with
  | VError (VString text) => Normal text
  | VError message => ToString platform message
  | _ => String_ platform raised
  end.

(** Whether a string holds two, or three, slashes in a row. *)
Fixpoint hasDoubleSlash (s : string) : bool :=
  match s with
  | EmptyString => false
  | String c r =>
      match r with
      | String c' _ => (Ascii.eqb c "/" && Ascii.eqb c' "/") || hasDoubleSlash r
      | EmptyString => false
      end
  end.

Fixpoint hasTripleSlash (s : string) : bool :=
  match s with
  | EmptyString => false
  | String c r =>
      match r with
      | String c' (String c'' _) =>
          (Ascii.eqb c "/" && Ascii.eqb c' "/" && Ascii.eqb c'' "/") || hasTripleSlash r
      | _ => false
      end
  end.

(** The components, each behind a slash. *)
Fixpoint slashed (components : list string) : string :=
  match components with
  | [] => ""
  | c :: rest => "/" +:+ c +:+ slashed rest
  end.

(** * Properties *)

(** ** Strings *)

Section StringFacts.

Lemma append_cons (c : ascii) (s t : string) :
  String c s +:+ t = String c (s +:+ t).
Proof. reflexivity. Qed.

Lemma append_nil_r (s : string) : s +:+ "" = s.
Proof. induction s as [|c s IH]; [reflexivity|]. rewrite append_cons, IH. reflexivity. Qed.

Lemma append_assoc (a b c : string) : (a +:+ b) +:+ c = a +:+ b +:+ c.
Proof.
  induction a as [|x a IH]; [reflexivity|].
  rewrite !append_cons, IH. reflexivity.
Qed.

Lemma length_append (a b : string) :
  String.length (a +:+ b) = (String.length a + String.length b)%nat.
Proof.
  induction a as [|x a IH]; [reflexivity|].
  rewrite append_cons. simpl. rewrite IH. reflexivity.
Qed.

Lemma substring_0_append (a b : string) :
  String.substring 0 (String.length a) (a +:+ b) = a.
Proof.
  induction a as [|x a IH].
  - destruct b; reflexivity.
  - rewrite append_cons. simpl. rewrite IH. reflexivity.
Qed.

Lemma includes_middle (pre needle post : string) :
  JsString.includes (pre +:+ needle +:+ post) needle.
Proof. exists pre, post. reflexivity. Qed.

Lemma includes_end (pre needle : string) :
  JsString.includes (pre +:+ needle) needle.
Proof. exists pre, "". rewrite append_nil_r. reflexivity. Qed.

(** [split] never returns the empty list, and what it returns joins
    back to the input. *)
Lemma split_not_nil (sep : ascii) (s : string) : JsString.split sep s <> [].
Proof.
  induction s as [|c s IH]; simpl; [discriminate|].
  destruct (Ascii.eqb c sep); [discriminate|].
  destruct (JsString.split sep s); [contradiction|discriminate].
Qed.

Lemma split_one (sep : ascii) (s b : string) :
  JsString.split sep s = [b] -> s = b.
Proof.
  revert b. induction s as [|c s IH]; intros b H; simpl in H.
  - congruence.
  - destruct (Ascii.eqb c sep).
    + injection H as _ H. destruct (split_not_nil _ _ H).
    + destruct (JsString.split sep s) as [|h t] eqn:E; [destruct (split_not_nil _ _ E)|].
      injection H as <- ->. f_equal. apply IH. reflexivity.
Qed.

Lemma split_two (sep : ascii) (s a b : string) :
  JsString.split sep s = [a; b] -> s = a +:+ String sep b.
Proof.
  revert a. induction s as [|c s IH]; intros a H; simpl in H; [discriminate|].
  destruct (Ascii.eqb_spec c sep) as [->|Hne].
  - injection H as <- H. apply split_one in H. subst. reflexivity.
  - destruct (JsString.split sep s) as [|h t] eqn:E; [discriminate|].
    injection H as <- ->. rewrite append_cons. f_equal. apply IH. reflexivity.
Qed.

End StringFacts.

(** ** The segment parser *)

Section ParserFacts.

(** One rejected component rejects the whole path. *)
Lemma extractSegments_reject (path s : string) :
  In s (segmentStrings path) -> classify s = None ->
  extractSegments path = None.
Proof.
  intros Hin Hs. unfold extractSegments.
  destruct (String.eqb_spec (JsString.trimSlashes path) "") as [E|_].
  - unfold segmentStrings in Hin. rewrite E in Hin. destruct Hin.
  - destruct (segmentStrings path) as [|c cs] eqn:Ecs; [destruct Hin|].
    change (Z.of_nat (List.length (c :: cs)) =? 0) with false. cbv iota.
    replace (existsb isNull (map classify (c :: cs))) with true; [reflexivity|].
    symmetry. apply existsb_exists. exists None. split; [|reflexivity].
    rewrite <- Hs. apply in_map. exact Hin.
Qed.

Lemma Extension_of_string_text (ext : string) (e : Extension) :
  Extension_of_string ext = Some e -> ext = Extension_text e.
Proof.
  unfold Extension_of_string.
  destruct (String.eqb_spec ext "ts") as [->|_]; [intros [= <-]; reflexivity|].
  destruct (String.eqb_spec ext "js") as [->|_]; [intros [= <-]; reflexivity|].
  destruct (String.eqb_spec ext "tsx") as [->|_]; [intros [= <-]; reflexivity|].
  destruct (String.eqb_spec ext "jsx") as [->|_]; [intros [= <-]; reflexivity|].
  discriminate.
Qed.

(** What a component that begins with a plus sign parses to. *)
Lemma classify_plus (s : string) :
  JsString.startsWith s "+" = true ->
  classify s =
    match JsString.split "." s with
    | [name; ext] =>
        match Extension_of_string ext with
        | None => None
        | Some e =>
            if String.eqb name "+server" then Some (Handle (ServerHandle e))
            else if String.eqb name "+page" then Some (Handle (PageHandle e))
            else None
        end
    | _ => None
    end.
Proof. intros H. unfold classify. rewrite H. reflexivity. Qed.

(** Without a leading plus sign a component is never a handle. *)
Lemma classify_handle_plus (s : string) (h : HandleSegment) :
  classify s = Some (Handle h) -> JsString.startsWith s "+" = true.
Proof.
  unfold classify. destruct (JsString.startsWith s "+"); [reflexivity|].
  repeat match goal with
         | |- context [if ?b then _ else _] => destruct b
         end; discriminate.
Qed.

Lemma classify_plus_not_path (s : string) (p : PathSegment) :
  JsString.startsWith s "+" = true -> classify s <> Some (Path p).
Proof.
  intros H. rewrite (classify_plus s H).
  destruct (JsString.split "." s) as [|name [|ext [|? ?]]]; try discriminate.
  destruct (Extension_of_string ext); [|discriminate].
  destruct (String.eqb name "+server"); [discriminate|].
  destruct (String.eqb name "+page"); discriminate.
Qed.

End ParserFacts.

(** C6: a component that begins with a plus sign is a handle segment exactly
    when it is a name and an extension separated by its only dot, with the
    extension one of ts, tsx, js, jsx and the name [+server] (a
    ServerHandle) or [+page] (a PageHandle); it is never a path segment,
    and any other such component rejects the whole path. *)
Theorem handle_component_exact (s : string) :
  JsString.startsWith s "+" = true ->
  (forall h : HandleSegment,
      classify s = Some (Handle h) <->
      exists (name : string) (e : Extension),
        s = name +:+ "." +:+ Extension_text e
        /\ JsString.count "." s = 1%nat
        /\ ((name = "+server" /\ h = ServerHandle e)
            \/ (name = "+page" /\ h = PageHandle e)))
  /\ (forall p : PathSegment, classify s <> Some (Path p))
  /\ (forall path : string,
        In s (segmentStrings path) ->
        ~ (exists h, classify s = Some (Handle h)) ->
        extractSegments path = None).
Proof.
  intros Hplus. split; [|split].
  - intros h. split.
    + rewrite (classify_plus s Hplus).
      destruct (JsString.split "." s) as [|name [|ext [|? ?]]] eqn:E; try discriminate.
      apply split_two in E.
      destruct (Extension_of_string ext) as [e|] eqn:Ee; [|discriminate].
      apply Extension_of_string_text in Ee. subst ext.
      destruct (String.eqb_spec name "+server") as [->|_].
      * intros [= <-]. exists "+server", e. subst s.
        repeat split; [destruct e; reflexivity|]. left. split; reflexivity.
      * destruct (String.eqb_spec name "+page") as [->|_]; [|discriminate].
        intros [= <-]. exists "+page", e. subst s.
        repeat split; [destruct e; reflexivity|]. right. split; reflexivity.
    + intros (name & e & -> & _ & [[-> ->]|[-> ->]]); destruct e; reflexivity.
  - intros p. apply classify_plus_not_path. exact Hplus.
  - intros path Hin Hno. apply (extractSegments_reject path s Hin).
    destruct (classify s) as [[p|h]|] eqn:E; [| |reflexivity].
    + destruct (classify_plus_not_path s p Hplus E).
    + destruct Hno. exists h. reflexivity.
Qed.

Lemma handle_component_exact_witness :
  classify "+server.ts" = Some (Handle (ServerHandle ts))
  /\ extractSegments "/api/+other.ts" = None.
Proof.
  split.
  - apply (proj1 (handle_component_exact "+server.ts" eq_refl)).
    exists "+server", ts. repeat split. left. split; reflexivity.
  - apply (proj2 (proj2 (handle_component_exact "+other.ts" eq_refl)) "/api/+other.ts").
    + right. left. reflexivity.
    + intros [h H]. discriminate H.
Defined.

Section BracketFacts.

(** The inner text of [[[...x]]] begins with three dots. *)
Lemma optional_rest_name (x : string) :
  let s := "[[..." +:+ x +:+ "]]" in
  JsString.startsWith (JsString.substring s 2 (JsString.length s - 2)) "..." = true.
Proof.
  intros s. subst s.
  change ("[[..." +:+ x +:+ "]]")
    with (String "[" (String "[" (String "." (String "." (String "." (x +:+ "]]")))))).
  unfold JsString.substring, JsString.length, JsString.clamp. cbn [String.length].
  rewrite length_append. cbn [String.length].
  set (n := String.length x).
  replace (Z.to_nat _) with 2%nat by lia.
  replace (Z.to_nat _) with (S (S (S n))) by lia.
  cbn [String.substring]. unfold JsString.startsWith.
  destruct (String.substring 0 n (x +:+ "]]")); reflexivity.
Qed.

Lemma classify_optional_rest (x : string) :
  classify ("[[..." +:+ x +:+ "]]") = None.
Proof.
  pose proof (optional_rest_name x) as Hname. cbv zeta in Hname.
  unfold classify. rewrite Hname.
  change ("[[..." +:+ x +:+ "]]")
    with (String "[" (String "[" (String "." (String "." (String "." (x +:+ "]]")))))).
  change (JsString.startsWith (String "[" ?r) "+") with false.
  cbv iota. rewrite andb_false_r.
  destruct (_ && _ && _); reflexivity.
Qed.

End BracketFacts.

(** C7: a path with a component of the optional-rest form [[[...x]]] (for
    any [x], so for any non-empty one) is rejected as a whole, and so is a
    path with one of the components [[[]]], [[...]] and [[]]: the component
    is no OptionalParam, RestParam, DynamicParam or Literal. *)
Theorem empty_or_optional_rest_rejected (path s : string) :
  In s (segmentStrings path) ->
  (exists x, s = "[[..." +:+ x +:+ "]]") \/ s = "[[]]" \/ s = "[...]" \/ s = "[]" ->
  classify s = None /\ extractSegments path = None.
Proof.
  intros Hin Hs.
  assert (classify s = None) as Hnone.
  { destruct Hs as [[x ->]|[->|[->| ->]]];
      [apply classify_optional_rest|reflexivity..]. }
  split; [exact Hnone|]. apply (extractSegments_reject path s Hin Hnone).
Qed.

Lemma empty_or_optional_rest_rejected_witness :
  classify "[[...invalid]]" = None /\ extractSegments "/[[...invalid]]" = None.
Proof.
  apply (empty_or_optional_rest_rejected "/[[...invalid]]" "[[...invalid]]").
  - left. reflexivity.
  - left. exists "invalid". reflexivity.
Defined.

(** ** Route extraction *)

Section RouteFacts.

(** A parse pairs each component with its segment. *)
Lemma extractSegments_classified (path : string) (segs : list Segment) :
  extractSegments path = Some segs ->
  Forall2 (fun s seg => classify s = Some seg) (segmentStrings path) segs.
Proof.
  unfold extractSegments.
  destruct (String.eqb_spec (JsString.trimSlashes path) "") as [E|_].
  - intros [= <-]. unfold segmentStrings. rewrite E. constructor.
  - destruct (segmentStrings path) as [|c cs]; [intros [= <-]; constructor|].
    change (Z.of_nat (List.length (c :: cs)) =? 0) with false. cbv iota.
    generalize (c :: cs). clear c cs. intros comps.
    destruct (existsb isNull (map classify comps)) eqn:E; [discriminate|].
    intros [= <-]. induction comps as [|c cs IH]; [constructor|].
    simpl in E. apply orb_false_iff in E as [Hc Hcs].
    destruct (classify c) as [seg|] eqn:Ec; [|discriminate].
    simpl. rewrite Ec. simpl. constructor; [exact Ec|]. apply IH, Hcs.
Qed.

(** A rejected parse makes [extractRoute] throw. *)
Lemma extractRoute_rejected (path : string) :
  extractSegments path = None -> extractRoute path = Throw TypeError.
Proof. intros H. unfold extractRoute. rewrite H. reflexivity. Qed.

Lemma extractRoute_Some (path : string) (route : Route) :
  extractRoute path = Normal (Some route) ->
  extractSegments path = Some route
  /\ exists pre h, route = pre ++ [Handle h].
Proof.
  unfold extractRoute. destruct (extractSegments path) as [segs|]; [|discriminate].
  destruct (_ || _) eqn:E; [discriminate|]. intros [= <-].
  split; [reflexivity|].
  apply orb_false_iff in E as [_ E].
  unfold at_last in E. destruct (last segs) as [seg|] eqn:El; [|discriminate E].
  apply last_Some in El as [pre ->]. exists pre.
  destruct seg as [[]|[]]; try discriminate E; eauto.
Qed.

Lemma at_last_snoc {A : Type} (l : list A) (x : A) : at_last (l ++ [x]) = Some x.
Proof. apply last_snoc. Qed.

End RouteFacts.

(** C5, as stated, fails: a directory named like a handle file gives a
    handle segment before the last position. *)
Lemma route_shape_counterexample :
  ~ (forall (path : string) (route : Route),
        extractRoute path = Normal (Some route) -> pathsThenHandle route).
Proof.
  intros H.
  destruct (H "+page.ts/+server.ts" [Handle (PageHandle ts); Handle (ServerHandle ts)] eq_refl)
    as (ps & h & E).
  destruct ps as [|p [|p' ps]]; discriminate E.
Qed.

(** C5, amended: every non-absent result of [extractRoute] is the parse of
    the path and ends in a handle segment; the segments before it are path
    segments when no component before the last begins with a plus sign. *)
Theorem route_ends_in_handle (path : string) (route : Route) :
  extractRoute path = Normal (Some route) ->
  extractSegments path = Some route
  /\ exists (pre : list Segment) (h : HandleSegment),
       route = pre ++ [Handle h]
       /\ ((forall s, In s (removelast (segmentStrings path)) ->
                      JsString.startsWith s "+" = false) ->
           exists ps : list PathSegment, pre = map Path ps).
Proof.
  intros H. apply extractRoute_Some in H as [Hsegs (pre & h & ->)].
  split; [exact Hsegs|]. exists pre, h. split; [reflexivity|].
  intros Hplus. apply extractSegments_classified in Hsegs.
  apply Forall2_app_inv_r in Hsegs as (cpre & clast & Hpre & Hlast & Ecomps).
  rewrite Ecomps in Hplus.
  apply Forall2_length in Hlast as Hlen. destruct clast as [|c [|? ?]]; try discriminate Hlen.
  rewrite removelast_last in Hplus.
  clear Hlast Hlen Ecomps. induction Hpre as [|s seg cs segs Hs _ IH].
  - exists []. reflexivity.
  - destruct IH as [ps ->]; [intros s' Hin; apply Hplus; right; exact Hin|].
    destruct seg as [p|h'].
    + exists (p :: ps). reflexivity.
    + apply classify_handle_plus in Hs. rewrite (Hplus s) in Hs; [discriminate|].
      left. reflexivity.
Qed.

Lemma route_ends_in_handle_witness :
  extractSegments "/api/users/+server.ts"
  = Some [Path (Literal "api"); Path (Literal "users"); Handle (ServerHandle ts)]
  /\ exists (pre : list Segment) (h : HandleSegment),
       [Path (Literal "api"); Path (Literal "users"); Handle (ServerHandle ts)]
       = pre ++ [Handle h]
       /\ ((forall s, In s (removelast (segmentStrings "/api/users/+server.ts")) ->
                      JsString.startsWith s "+" = false) ->
           exists ps : list PathSegment, pre = map Path ps).
Proof.
  apply (route_ends_in_handle "/api/users/+server.ts"). reflexivity.
Defined.

(** C2: on the path of the repository's own test, where the parser
    rejects, [extractRoute] throws instead of returning the absence. *)
Theorem extractRoute_throws_on_rejected_parse :
  extractSegments "/api/+invalid" = None
  /\ extractRoute "/api/+invalid" = Throw TypeError.
Proof. split; reflexivity. Qed.

(** ** Handlers of a server module *)

Section ServerFacts.

(** On the values of the model, whose properties are data properties, the
    guarded test of the source is the validity of the specification. *)
Lemma isHandler_validHandler (v : Value) : isHandler v = Normal (validHandler v).
Proof.
  destruct v as [| |b|[|n]|s|body|message|props]; try reflexivity.
  - destruct b; reflexivity.
  - unfold isHandler. simpl. destruct (negb (n =? 0)); reflexivity.
  - unfold isHandler. simpl. destruct (negb (String.eqb s "")); reflexivity.
  - unfold isHandler, validHandler, bearsCallablePipe. simpl.
    destruct (props !! "pipe") as [[]|]; reflexivity.
Qed.

Lemma register_Method_name (m : Method) (router : HttpRouter)
    (pattern : string) (h : Handler) :
  register (Method_name m) router pattern h
  = router ++ [{| method := Only m; path := pattern; handler := h |}].
Proof. destruct m; reflexivity. Qed.

Lemma registerMethods_entries (module : gmap string Value) (pattern : string)
    (methods : list Method) (router : HttpRouter) (found : bool) :
  registerMethods module pattern (map Method_name methods) router found
  = Normal (router ++ methodEntries module pattern methods,
            found || negb (isNull (head (methodEntries module pattern methods)))).
Proof.
  revert router found. induction methods as [|m ms IH]; intros router found.
  - simpl. rewrite app_nil_r, orb_false_r. reflexivity.
  - cbn [map registerMethods]. rewrite isHandler_validHandler.
    unfold methodEntries. cbn [List.filter].
    destruct (validHandler (export module (Method_name m))).
    + rewrite IH, register_Method_name, <- app_assoc.
      cbn. rewrite orb_true_r. reflexivity.
    + rewrite IH. reflexivity.
Qed.

End ServerFacts.

(** ** The route builder *)

Section BuilderFacts.

Context (platform : Platform).

Lemma serverHandle_outcome (module : gmap string Value)
    (pattern file : string) (router : HttpRouter) :
  serverHandle module pattern file router =
    match methodEntries module pattern allMethods with
    | [] =>
        if validHandler (export module "default")
        then Success (router ++ [catchAllEntry module pattern])
        else Failure (InvalidModuleError
               ("No valid route handlers (method-specific functions or default export) found in "
                +:+ file))
    | (_ :: _) as entries => Success (router ++ entries)
    end.
Proof.
  unfold serverHandle. rewrite isHandler_validHandler.
  change httpMethods with (map Method_name allMethods).
  rewrite registerMethods_entries.
  destruct (methodEntries module pattern allMethods); [|reflexivity].
  cbn. rewrite app_nil_r. reflexivity.
Qed.

(** A file whose path is a route and whose module loads is validated
    under the handle the route ends in. *)
Lemma processFile_loaded (dir rel : string) (router : HttpRouter)
    (pre : list Segment) (h : HandleSegment) (module : gmap string Value) :
  extractRoute rel = Normal (Some (pre ++ [Handle h])) ->
  import platform (join platform dir rel) = inr module ->
  processFile platform dir router rel
  = validateAndRegister platform (Handle h) module (segmentsToPath pre)
      (join platform dir rel) router.
Proof.
  intros Hroute Himport. unfold processFile.
  rewrite Hroute, at_last_snoc, removelast_last, Himport. reflexivity.
Qed.

(** A listed path that the parser rejects ends the build with a defect. *)
Lemma processFile_rejected (dir rel : string) (router : HttpRouter) :
  extractSegments rel = None ->
  processFile platform dir router rel = Die TypeError.
Proof.
  intros H. unfold processFile. rewrite (extractRoute_rejected rel H). reflexivity.
Qed.

Lemma validateAndRegister_server (e : Extension) (module : gmap string Value)
    (pattern file : string) (router : HttpRouter) :
  validateAndRegister platform (Handle (ServerHandle e)) module pattern file router
  = serverHandle module pattern file router.
Proof.
  unfold validateAndRegister. cbn.
  destruct (_ && _); reflexivity.
Qed.

Lemma validateAndRegister_page (e : Extension) (module : gmap string Value)
    (pattern file : string) (router : HttpRouter) :
  validateAndRegister platform (Handle (PageHandle e)) module pattern file router
  = if Js.truthy (export module "default")
    then pageHandle platform module pattern file router
    else Failure (InvalidModuleError
           ("Missing default export in " +:+ file +:+ " for +page.tsx")).
Proof.
  unfold validateAndRegister. cbn.
  destruct (Js.truthy (export module "default")); cbn; [reflexivity|].
  destruct (negb _); reflexivity.
Qed.

(** The loop stops at the first file that fails. *)
Lemma processFiles_app (dir : string) (router : HttpRouter)
    (before after : list string) :
  processFiles platform dir router (before ++ after)
  = match processFiles platform dir router before with
    | Success router' => processFiles platform dir router' after
    | Failure e => Failure e
    | Die d => Die d
    end.
Proof.
  revert router. induction before as [|f fs IH]; intros router; [reflexivity|].
  cbn [app processFiles].
  destruct (processFile platform dir router f); [apply IH|reflexivity..].
Qed.

End BuilderFacts.



(** ** Method exports that are no handlers *)

Section DispatchFacts.


Lemma methodEntries_In (module : gmap string Value) (pattern : string)
    (methods : list Method) (entry : RouteEntry) :
  In entry (methodEntries module pattern methods) ->
  exists m, In m methods
            /\ validHandler (export module (Method_name m)) = true
            /\ entry = methodEntry module pattern m.
Proof.
  unfold methodEntries. intros H. apply in_map_iff in H as (m & <- & H).
  apply filter_In in H as [Hin Hvalid]. exists m. auto.
Qed.



End DispatchFacts.




(** ** Pages *)

Section PageFacts.

Context (platform : Platform).

(** A default export that is a non-empty string is the page content. *)
Lemma page_string_registered (dir rel : string) (rest : list string)
    (router : HttpRouter) (pre : list Segment) (e : Extension)
    (module : gmap string Value) (content : string) :
  extractRoute rel = Normal (Some (pre ++ [Handle (PageHandle e)])) ->
  import platform (join platform dir rel) = inr module ->
  export module "default" = VString content ->
  content <> "" ->
  processFiles platform dir router (rel :: rest)
  = processFiles platform dir (router ++ [pageEntry (segmentsToPath pre) content]) rest.
Proof.
  intros Hroute Himport Hdefault Hne. cbn [processFiles].
  rewrite (processFile_loaded platform dir rel router pre _ module Hroute Himport).
  rewrite validateAndRegister_page, Hdefault. cbn.
  destruct (String.eqb_spec content "") as [->|_]; [destruct Hne; reflexivity|].
  cbn. unfold pageHandle. rewrite Hdefault. reflexivity.
Qed.

(** The empty string is falsy, so the check of the default export takes
    it for a missing one. *)
Lemma page_empty_string_rejected (dir rel : string) (rest : list string)
    (router : HttpRouter) (pre : list Segment) (e : Extension)
    (module : gmap string Value) :
  extractRoute rel = Normal (Some (pre ++ [Handle (PageHandle e)])) ->
  import platform (join platform dir rel) = inr module ->
  export module "default" = VString "" ->
  processFiles platform dir router (rel :: rest)
  = Failure (InvalidModuleError
      ("Missing default export in " +:+ join platform dir rel +:+ " for +page.tsx")).
Proof.
  intros Hroute Himport Hdefault. cbn [processFiles].
  rewrite (processFile_loaded platform dir rel router pre _ module Hroute Himport).
  rewrite validateAndRegister_page, Hdefault. reflexivity.
Qed.

End PageFacts.

(** C3: a page whose default export is the empty string is not built.
    The export is there, and a function that returns the same string is
    accepted, but the check of the default export is one of truthiness and
    reports a missing default export. *)
Theorem empty_string_page_fails :
  fromFiles (Fixture.platform "/routes" [("+page.tsx", inr Fixture.emptyPage)])
    "/routes"
  = Failure (InvalidModuleError "Missing default export in /routes/+page.tsx for +page.tsx").
Proof. vm_compute. reflexivity. Qed.

Section PageFunctionFacts.

Context (platform : Platform).

(** The page of a callable default export, by the outcome of the call. *)
Lemma pageHandle_function (module : gmap string Value) (pattern file : string)
    (router : HttpRouter) :
  callable (export module "default") = true ->
  pageHandle platform module pattern file router
  = match Js.call (export module "default") with
    | Returns (VString content) => Success (router ++ [pageEntry pattern content])
    | Returns _ =>
        Failure (InvalidModuleError
          ("Default export function in " +:+ file
           +:+ " for +page.tsx did not return a string."))
    | Raises raised =>
        match description platform raised with
        | Normal text =>
            Failure (InvalidModuleError
              ("Error executing default export function in " +:+ file
               +:+ " for +page.tsx: " +:+ text))
        | Throw thrown => Die thrown
        end
    end.
Proof.
  intros Hcallable. unfold pageHandle, description.
  destruct (export module "default") as [| | | | |[result|raised]| |];
    try discriminate Hcallable; cbn.
  - destruct result; reflexivity.
  - destruct raised as [| | | | | |[]|]; reflexivity.
Qed.

(** When the call raises a value that has a description, or returns a
    value that is no string, the build fails with an InvalidModuleError
    that names the file. *)
Lemma page_function_wrapped (dir rel : string) (rest : list string)
    (router : HttpRouter) (pre : list Segment) (e : Extension)
    (module : gmap string Value) :
  extractRoute rel = Normal (Some (pre ++ [Handle (PageHandle e)])) ->
  import platform (join platform dir rel) = inr module ->
  callable (export module "default") = true ->
  let file := join platform dir rel in
  (forall (raised : Value) (text : string),
      Js.call (export module "default") = Raises raised ->
      description platform raised = Normal text ->
      exists message,
        processFiles platform dir router (rel :: rest)
        = Failure (InvalidModuleError message)
        /\ JsString.includes message "Error executing default export function"
        /\ JsString.includes message file)
  /\ (forall result : Value,
        Js.call (export module "default") = Returns result ->
        Js.typeof result <> "string" ->
        exists message,
          processFiles platform dir router (rel :: rest)
          = Failure (InvalidModuleError message)
          /\ JsString.includes message "did not return a string"
          /\ JsString.includes message file).
Proof.
  intros Hroute Himport Hcallable file.
  assert (processFiles platform dir router (rel :: rest)
          = match pageHandle platform module (segmentsToPath pre) file router with
            | Success router' => processFiles platform dir router' rest
            | Failure err => Failure err
            | Die d => Die d
            end) as Hfile.
  { cbn [processFiles].
    rewrite (processFile_loaded platform dir rel router pre _ module Hroute Himport).
    rewrite validateAndRegister_page.
    destruct (export module "default"); try discriminate Hcallable. reflexivity. }
  rewrite (pageHandle_function module _ file router Hcallable) in Hfile.
  split.
  - intros raised text Hcall Htext. rewrite Hcall, Htext in Hfile.
    eexists. split; [exact Hfile|]. split.
    + exists "", (" in " +:+ file +:+ " for +page.tsx: " +:+ text). reflexivity.
    + apply (includes_middle "Error executing default export function in " file).
  - intros result Hcall Htype. rewrite Hcall in Hfile.
    assert (exists message,
               processFiles platform dir router (rel :: rest)
               = Failure (InvalidModuleError message)
               /\ message = "Default export function in " +:+ file
                            +:+ " for +page.tsx did not return a string.") as (message & Hm & ->).
    { destruct result; try (eexists; split; [exact Hfile|reflexivity]).
      destruct Htype. reflexivity. }
    eexists. split; [exact Hm|]. split.
    + exists ("Default export function in " +:+ file +:+ " for +page.tsx "), ".".
      rewrite !append_assoc. reflexivity.
    + apply (includes_middle "Default export function in " file).
Qed.

End PageFunctionFacts.

(** C4: the call of a callable default export is wrapped, but the message
    of the wrapping error converts what was raised without a guard: when
    the call raises a value that is no error object and whose string
    conversion throws, the build ends with the defect of that exception
    instead of an InvalidModuleError. *)
Theorem unguarded_conversion_defect (platform : Platform) (dir rel : string)
    (rest : list string) (router : HttpRouter) (pre : list Segment)
    (e : Extension) (module : gmap string Value) (raised : Value)
    (thrown : Thrown) :
  extractRoute rel = Normal (Some (pre ++ [Handle (PageHandle e)])) ->
  import platform (join platform dir rel) = inr module ->
  callable (export module "default") = true ->
  Js.call (export module "default") = Raises raised ->
  (forall message, raised <> VError message) ->
  String_ platform raised = Throw thrown ->
  processFiles platform dir router (rel :: rest) = Die thrown.
Proof.
  intros Hroute Himport Hcallable Hcall Hraised Hstring. cbn [processFiles].
  rewrite (processFile_loaded platform dir rel router pre _ module Hroute Himport).
  rewrite validateAndRegister_page.
  replace (Js.truthy (export module "default")) with true
    by (destruct (export module "default"); try discriminate Hcallable; reflexivity).
  rewrite (pageHandle_function platform module _ _ router Hcallable), Hcall.
  unfold description.
  destruct raised as [| | | | | |message|]; try (rewrite Hstring; reflexivity).
  destruct (Hraised message eq_refl).
Qed.

Lemma unguarded_conversion_defect_witness :
  processFiles
    (Fixture.platform "/routes" [("broken/+page.tsx", inr Fixture.unprintablePage)])
    "/routes" HttpRouter.empty ["broken/+page.tsx"]
  = Die (Raised (VError (VString "no text"))).
Proof.
  apply (unguarded_conversion_defect
           (Fixture.platform "/routes" [("broken/+page.tsx", inr Fixture.unprintablePage)])
           "/routes" "broken/+page.tsx" [] HttpRouter.empty
           [Path (Literal "broken")] tsx Fixture.unprintablePage Fixture.unprintable);
    (reflexivity || discriminate).
Defined.

(** ** Import failures *)

(** C9: when the import of a route file fails, the build fails with an
    ImportError that carries the cause as it was raised and the absolute
    path of the file; no router is returned. *)
Theorem import_failure_is_fatal (platform : Platform) (scanDir : string)
    (before after : list string) (rel : string) (route : Route)
    (cause : Value) (router : HttpRouter) :
  let dir := resolve platform scanDir in
  readDirectory platform dir = inr (before ++ rel :: after) ->
  processFiles platform dir HttpRouter.empty before = Success router ->
  extractRoute rel = Normal (Some route) ->
  import platform (join platform dir rel) = inl cause ->
  fromFiles platform scanDir
  = Failure (ImportError cause (join platform dir rel)).
Proof.
  intros dir Hlist Hbefore Hroute Himport. unfold fromFiles. fold dir.
  rewrite Hlist, processFiles_app, Hbefore. cbn [processFiles].
  apply extractRoute_Some in Hroute as Hshape. destruct Hshape as [_ (pre & h & ->)].
  unfold processFile. rewrite Hroute, at_last_snoc, Himport. reflexivity.
Qed.

Lemma import_failure_is_fatal_witness :
  fromFiles
    (Fixture.platform "/routes"
       [("+page.tsx", inr (Fixture.page "Hello"));
        ("broken/+server.ts", inl (VError (VString "Unexpected identifier")));
        ("later/+page.tsx", inr (Fixture.page "Later"))])
    "/routes"
  = Failure (ImportError (VError (VString "Unexpected identifier")) "/routes/broken/+server.ts").
Proof.
  apply (import_failure_is_fatal
           (Fixture.platform "/routes"
              [("+page.tsx", inr (Fixture.page "Hello"));
               ("broken/+server.ts", inl (VError (VString "Unexpected identifier")));
               ("later/+page.tsx", inr (Fixture.page "Later"))])
           "/routes" ["+page.tsx"] ["later/+page.tsx"] "broken/+server.ts"
           [Path (Literal "broken"); Handle (ServerHandle ts)]
           (VError (VString "Unexpected identifier")) [pageEntry "/" "Hello"]);
    reflexivity.
Defined.

(** ** Dispatch patterns *)

Section PatternFacts.

Lemma segmentsToPath_nil : segmentsToPath [] = "/".
Proof. reflexivity. Qed.

(** The name of a rest parameter is its raw text without the opening
    bracket and dots and without the closing bracket. *)
Lemma rest_parameter_name (name : string) :
  JsString.substring ("[..." +:+ name +:+ "]") 4
    (JsString.length ("[..." +:+ name +:+ "]") - 1) = name.
Proof.
  change ("[..." +:+ name +:+ "]")
    with (String "[" (String "." (String "." (String "." (name +:+ "]"))))).
  unfold JsString.substring, JsString.length, JsString.clamp. cbn [String.length].
  rewrite length_append. cbn [String.length].
  set (n := String.length name).
  replace (Z.to_nat _) with 4%nat by lia.
  replace (Z.to_nat _) with n by lia.
  cbn [String.substring]. apply substring_0_append.
Qed.

Lemma patternComponent_rest (name : string) :
  patternComponent (Path (RestParam ("[..." +:+ name +:+ "]")))
  = Some (":" +:+ name +:+ "*").
Proof. unfold patternComponent. rewrite rest_parameter_name. reflexivity. Qed.

End PatternFacts.

Section CleanPatterns.

(** A character other than the slash is copied by the replacement. *)
Lemma replaceDoubleSlash_other (c : ascii) (s : string) :
  Ascii.eqb c "/" = false ->
  JsString.replaceDoubleSlash (String c s) = String c (JsString.replaceDoubleSlash s).
Proof.
  intros H. destruct s as [|d s]; [reflexivity|].
  cbn [JsString.replaceDoubleSlash]. rewrite H. reflexivity.
Qed.

Lemma replaceDoubleSlash_slash_other (c : ascii) (s : string) :
  Ascii.eqb c "/" = false ->
  JsString.replaceDoubleSlash (String "/" (String c s))
  = String "/" (JsString.replaceDoubleSlash (String c s)).
Proof.
  intros H. cbn [JsString.replaceDoubleSlash]. rewrite H.
  rewrite andb_false_r. reflexivity.
Qed.

Lemma count_cons_zero (c d : ascii) (s : string) :
  JsString.count c (String d s) = 0%nat ->
  Ascii.eqb d c = false /\ JsString.count c s = 0%nat.
Proof. cbn. destruct (Ascii.eqb d c); [discriminate|]. auto. Qed.

Lemma replaceDoubleSlash_slashFree (c t : string) :
  JsString.count "/" c = 0%nat ->
  JsString.replaceDoubleSlash (c +:+ t) = c +:+ JsString.replaceDoubleSlash t.
Proof.
  induction c as [|x c IH]; intros H; [reflexivity|].
  apply count_cons_zero in H as [Hx Hc].
  rewrite !append_cons, replaceDoubleSlash_other, IH by assumption. reflexivity.
Qed.

Lemma slashed_concat (c : string) (components : list string) :
  "/" +:+ String.concat "/" (c :: components) = slashed (c :: components).
Proof.
  revert c. induction components as [|d ds IH]; intros c.
  - cbn [String.concat slashed]. rewrite append_nil_r. reflexivity.
  - cbn [String.concat]. cbn [slashed] in *. rewrite <- IH. reflexivity.
Qed.

(** With components that are not empty and hold no slash, the replacement
    finds nothing to replace. *)
Lemma replaceDoubleSlash_slashed (components : list string) :
  Forall (fun c => c <> "" /\ JsString.count "/" c = 0%nat) components ->
  JsString.replaceDoubleSlash (slashed components) = slashed components.
Proof.
  induction 1 as [|c cs [Hne Hfree] _ IH]; [reflexivity|].
  cbn [slashed]. destruct c as [|x c]; [destruct Hne; reflexivity|].
  apply count_cons_zero in Hfree as [Hx Hc].
  change ("/" +:+ String x c +:+ slashed cs) with (String "/" (String x (c +:+ slashed cs))).
  rewrite replaceDoubleSlash_slash_other, replaceDoubleSlash_other by assumption.
  rewrite replaceDoubleSlash_slashFree, IH by assumption. reflexivity.
Qed.

End CleanPatterns.

Section ParsedComponents.

Lemma count_append (c : ascii) (a b : string) :
  JsString.count c (a +:+ b) = (JsString.count c a + JsString.count c b)%nat.
Proof.
  induction a as [|x a IH]; [reflexivity|].
  rewrite append_cons. cbn [JsString.count]. rewrite IH. lia.
Qed.

Lemma count_substring (c : ascii) (n m : nat) (s : string) :
  JsString.count c s = 0%nat -> JsString.count c (String.substring n m s) = 0%nat.
Proof.
  revert n m. induction s as [|x s IH]; intros n m H.
  - destruct n, m; reflexivity.
  - apply count_cons_zero in H as [Hx Hs].
    destruct n as [|n]; [destruct m as [|m]|]; cbn [String.substring JsString.count].
    + reflexivity.
    + rewrite Hx. cbn. apply IH, Hs.
    + apply IH, Hs.
Qed.

Lemma split_slashFree (sep : ascii) (t s : string) :
  In s (JsString.split sep t) -> JsString.count sep s = 0%nat.
Proof.
  revert s. induction t as [|x t IH]; intros s H; cbn [JsString.split] in H.
  - destruct H as [<-|[]]. reflexivity.
  - destruct (Ascii.eqb x sep) eqn:Ex.
    + destruct H as [<-|H]; [reflexivity|apply IH, H].
    + destruct (JsString.split sep t) as [|h tl] eqn:E; [destruct (split_not_nil _ _ E)|].
      destruct H as [<-|H].
      * cbn [JsString.count]. rewrite Ex. apply IH. left. reflexivity.
      * apply IH. right. exact H.
Qed.

Lemma segmentStrings_slashFree (path s : string) :
  In s (segmentStrings path) -> JsString.count "/" s = 0%nat.
Proof.
  unfold segmentStrings. intros H. apply filter_In in H as [H _].
  apply (split_slashFree _ _ _ H).
Qed.

(** The pattern component of a parsed path segment is not empty and holds
    no slash. *)
Lemma classify_path_component (s : string) (p : PathSegment) :
  JsString.count "/" s = 0%nat ->
  classify s = Some (Path p) ->
  exists c, patternComponent (Path p) = Some c
            /\ c <> "" /\ JsString.count "/" c = 0%nat.
Proof.
  intros Hfree. unfold classify.
  destruct (JsString.startsWith s "+") eqn:Hplus.
  { intros H. exfalso. apply (classify_plus_not_path s p Hplus).
    rewrite (classify_plus s Hplus). exact H. }
  assert (forall a b, JsString.count "/" (JsString.substring s a b) = 0%nat) as Hsub
    by (intros a b; apply count_substring, Hfree).
  repeat match goal with
         | |- context [if ?b then _ else _] => destruct b eqn:?
         end;
    intros [= <-]; cbn [patternComponent]; eexists; (split; [reflexivity|]);
    try (split; [discriminate|]; rewrite !count_append, Hsub; reflexivity).
  all: split; [destruct s; [discriminate|discriminate]|exact Hfree].
Qed.

(** The raw text of a parsed rest parameter. *)
Lemma wordsThenClose_shape (r : string) :
  JsString.wordsThenClose r = true ->
  exists name, r = name +:+ "]" /\ JsString.allWord name = true.
Proof.
  induction r as [|c r IH]; [discriminate|]. cbn [JsString.wordsThenClose].
  intros H. apply orb_true_iff in H as [H|H].
  - apply andb_true_iff in H as [Hc Hr].
    apply Ascii.eqb_eq in Hc. apply String.eqb_eq in Hr. subst.
    exists "". split; reflexivity.
  - apply andb_true_iff in H as [Hc Hr]. destruct (IH Hr) as (name & -> & Hname).
    exists (String c name). split; [reflexivity|]. cbn. rewrite Hc, Hname. reflexivity.
Qed.

Lemma matchesRest_shape (s : string) :
  JsString.matchesRest s = true ->
  exists r, s = "[..." +:+ r /\ JsString.wordThenClose r = true.
Proof.
  unfold JsString.matchesRest.
  destruct s as [|c0 [|c1 [|c2 [|c3 r]]]].
  - discriminate.
  - destruct c0 as [[] [] [] [] [] [] [] []]; discriminate.
  - destruct c0 as [[] [] [] [] [] [] [] []]; try discriminate.
    destruct c1 as [[] [] [] [] [] [] [] []]; discriminate.
  - destruct c0 as [[] [] [] [] [] [] [] []]; try discriminate.
    destruct c1 as [[] [] [] [] [] [] [] []]; try discriminate.
    destruct c2 as [[] [] [] [] [] [] [] []]; discriminate.
  - destruct c0 as [[] [] [] [] [] [] [] []]; try discriminate.
    destruct c1 as [[] [] [] [] [] [] [] []]; try discriminate.
    destruct c2 as [[] [] [] [] [] [] [] []]; try discriminate.
    destruct c3 as [[] [] [] [] [] [] [] []]; try discriminate.
    intros H. exists r. split; [reflexivity|exact H].
Qed.

Lemma classify_rest_shape (s raw : string) :
  classify s = Some (Path (RestParam raw)) ->
  exists name, raw = "[..." +:+ name +:+ "]" /\ JsString.isWord name = true.
Proof.
  unfold classify.
  destruct (JsString.startsWith s "+") eqn:Hplus.
  { intros H. exfalso. apply (classify_plus_not_path s (RestParam raw) Hplus).
    rewrite (classify_plus s Hplus). exact H. }
  destruct (JsString.matchesRest s) eqn:Hrest;
    repeat match goal with
           | |- context [if ?b then _ else _] => destruct b eqn:?
           end;
    intros [= <-].
  all: apply matchesRest_shape in Hrest as (r & -> & Hr).
  all: destruct r as [|c r]; [discriminate Hr|]; cbn [JsString.wordThenClose] in Hr.
  all: apply andb_true_iff in Hr as [Hc Hr].
  all: apply wordsThenClose_shape in Hr as (name & -> & Hname).
  all: exists (String c name); split; [reflexivity|]; cbn; rewrite Hc, Hname; reflexivity.
Qed.

End ParsedComponents.

(** X10: for the prefix of a parsed route that holds path segments only, no
    double slash arises: the pattern is the components joined behind a
    leading slash. *)
Lemma segmentsToPath_parsed (path : string) (ps : list PathSegment)
    (h : HandleSegment) :
  extractRoute path = Normal (Some (map Path ps ++ [Handle h])) ->
  segmentsToPath (map Path ps)
  = match ps with
    | [] => "/"
    | _ :: _ => "/" +:+ JsString.join "/" (map patternComponent (map Path ps))
    end.
Proof.
  intros H. apply extractRoute_Some in H as [Hsegs _].
  apply extractSegments_classified in Hsegs.
  apply Forall2_app_inv_r in Hsegs as (cpre & clast & Hpre & _ & Ecomps).
  assert (forall s, In s cpre -> JsString.count "/" s = 0%nat) as Hfree.
  { intros s Hin. apply (segmentStrings_slashFree path). rewrite Ecomps.
    apply in_or_app. left. exact Hin. }
  assert (Forall (fun c => c <> "" /\ JsString.count "/" c = 0%nat)
            (map (default "") (map patternComponent (map Path ps)))) as Hgood.
  { clear Ecomps. apply Forall2_fmap_r in Hpre.
    induction Hpre as [|s p cs ps' Hs _ IH]; [constructor|].
    cbn [map]. constructor.
    - destruct (classify_path_component s p (Hfree s (or_introl eq_refl)) Hs)
        as (c & -> & Hc). exact Hc.
    - apply IH. intros s' Hin. apply Hfree. right. exact Hin. }
  destruct ps as [|p ps]; [reflexivity|].
  unfold segmentsToPath, JsString.join. cbn [map List.length] in *.
  change (Z.of_nat (S _) =? 0) with false. cbv iota.
  rewrite slashed_concat. apply replaceDoubleSlash_slashed. exact Hgood.
Qed.

(** The same pattern is registered for a route file under three
    directories named like handle files. *)
Lemma double_slash_registered :
  fromFiles
    (Fixture.platform "/routes"
       [("+page.ts/+page.ts/+page.ts/+server.ts", inr Fixture.methodsModule)])
    "/routes"
  = Success [methodEntry Fixture.methodsModule "//" GET;
             methodEntry Fixture.methodsModule "//" POST].
Proof. vm_compute. reflexivity. Qed.

(** C8: three adjacent empty components join to three slashes, of which
    the single pass of the replacement leaves two: the pattern keeps a
    double slash. *)
Theorem double_slash_survives :
  segmentsToPath [Path (Literal ""); Path (Literal ""); Path (Literal "")] = "//".
Proof. reflexivity. Qed.

(** * Further properties *)

(** ** Slashes *)

Section SlashFacts.

Lemma split_app (sep : ascii) (a b : string) :
  JsString.split sep (a +:+ String sep b) = JsString.split sep a ++ JsString.split sep b.
Proof.
  induction a as [|c a IH].
  - change ("" +:+ String sep b) with (String sep b).
    cbn [JsString.split]. rewrite Ascii.eqb_refl. reflexivity.
  - rewrite append_cons. cbn [JsString.split]. rewrite IH.
    destruct (Ascii.eqb c sep); [reflexivity|].
    destruct (JsString.split sep a) as [|h t] eqn:E; [destruct (split_not_nil _ _ E)|].
    reflexivity.
Qed.

Lemma dropLeadingSlash_cases (p : string) :
  JsString.dropLeadingSlash p = p \/ p = String "/" (JsString.dropLeadingSlash p).
Proof.
  destruct p as [|c r]; [left; reflexivity|].
  destruct (Ascii.eqb_spec c "/") as [->|N]; [right; reflexivity|].
  left. destruct c as [[] [] [] [] [] [] [] []]; try reflexivity. destruct N. reflexivity.
Qed.

Lemma dropTrailingSlash_cases (p : string) :
  JsString.dropTrailingSlash p = p \/ p = JsString.dropTrailingSlash p +:+ "/".
Proof.
  induction p as [|c r IH]; [left; reflexivity|].
  cbn [JsString.dropTrailingSlash]. destruct r as [|d r].
  - destruct (Ascii.eqb_spec c "/") as [->|_]; [right|left]; reflexivity.
  - destruct IH as [IH|IH].
    + left. rewrite IH. reflexivity.
    + right. rewrite append_cons, <- IH. reflexivity.
Qed.

(** The trimming of the ends is subsumed by the filter of the empty
    components. *)
Lemma segmentStrings_split (path : string) :
  segmentStrings path
  = List.filter (fun s => negb (String.eqb s "")) (JsString.split "/" path).
Proof.
  unfold segmentStrings, JsString.trimSlashes.
  transitivity (List.filter (fun s => negb (String.eqb s ""))
                  (JsString.split "/" (JsString.dropLeadingSlash path))).
  - destruct (dropTrailingSlash_cases (JsString.dropLeadingSlash path)) as [->|E];
      [reflexivity|].
    rewrite E at 2. rewrite split_app, List.filter_app. cbn. rewrite app_nil_r. reflexivity.
  - destruct (dropLeadingSlash_cases path) as [->|E]; [reflexivity|].
    rewrite E at 2. reflexivity.
Qed.

Lemma segmentStrings_app (a b : string) :
  segmentStrings (a +:+ "/" +:+ b) = segmentStrings a ++ segmentStrings b.
Proof.
  rewrite !segmentStrings_split.
  change (a +:+ "/" +:+ b) with (a +:+ String "/" b).
  rewrite split_app, List.filter_app. reflexivity.
Qed.

(** The parse is a function of the components. *)
Lemma extractSegments_classifyAll (path : string) :
  extractSegments path = classifyAll (segmentStrings path).
Proof.
  unfold extractSegments, classifyAll.
  destruct (String.eqb_spec (JsString.trimSlashes path) "") as [E|_].
  - unfold segmentStrings. rewrite E. reflexivity.
  - destruct (segmentStrings path); reflexivity.
Qed.

End SlashFacts.

(** X1: the parse of a path is that of its non-empty components between
    slashes: a slash more or less at either end, or next to another slash,
    changes nothing. *)
Theorem extractSegments_slashes (a b : string) :
  extractSegments ("/" +:+ a) = extractSegments a
  /\ extractSegments (a +:+ "/") = extractSegments a
  /\ extractSegments (a +:+ "//" +:+ b) = extractSegments (a +:+ "/" +:+ b).
Proof.
  rewrite !extractSegments_classifyAll. repeat split; f_equal.
  - apply (segmentStrings_app "" a).
  - rewrite <- (append_nil_r a) at 2.
    change (a +:+ "/") with (a +:+ "/" +:+ ""). rewrite segmentStrings_app.
    rewrite (append_nil_r a), app_nil_r. reflexivity.
  - change (a +:+ "//" +:+ b) with (a +:+ "/" +:+ ("/" +:+ b)).
    rewrite !segmentStrings_app. f_equal. apply (segmentStrings_app "" b).
Qed.

(** X2: a parse succeeds exactly when every component classifies, and it
    is then the classifications in the order of the components; it is
    rejected exactly when one component is. *)
Theorem extractSegments_components (path : string) :
  (forall segs : list Segment,
      extractSegments path = Some segs
      <-> Forall2 (fun s seg => classify s = Some seg) (segmentStrings path) segs)
  /\ (extractSegments path = None
      <-> exists s, In s (segmentStrings path) /\ classify s = None).
Proof.
  rewrite extractSegments_classifyAll. unfold classifyAll.
  generalize (segmentStrings path). intros comps. split.
  - intros segs. split.
    + destruct (existsb isNull (map classify comps)) eqn:E; [discriminate|].
      intros [= <-]. induction comps as [|c cs IH]; [constructor|].
      cbn in E. apply orb_false_iff in E as [Hc Hcs].
      destruct (classify c) as [seg|] eqn:Ec; [|discriminate].
      cbn. rewrite Ec. cbn. constructor; [exact Ec|]. apply IH, Hcs.
    + induction 1 as [|c seg cs segs Hc _ IH]; [reflexivity|].
      cbn. rewrite Hc. cbn.
      destruct (existsb isNull (map classify cs)); [discriminate|].
      injection IH as ->. reflexivity.
  - split.
    + destruct (existsb isNull (map classify comps)) eqn:E; [|discriminate].
      intros _. apply existsb_exists in E as ([seg|] & Hin & Hnull); [discriminate|].
      apply in_map_iff in Hin as (s & Hs & Hin). exists s. auto.
    + intros (s & Hin & Hs).
      replace (existsb isNull (map classify comps)) with true; [reflexivity|].
      symmetry. apply existsb_exists. exists None. split; [|reflexivity].
      rewrite <- Hs. apply in_map. exact Hin.
Qed.

(** ** Tokens *)

Section TokenFacts.

Lemma prefix_nil (s : string) : String.prefix "" s = true.
Proof. destruct s; reflexivity. Qed.

Lemma isWordChar_not_special (c : ascii) :
  JsString.isWordChar c = true ->
  c <> "+"%char /\ c <> "["%char /\ c <> "."%char /\ c <> "/"%char /\ c <> "]"%char.
Proof.
  destruct c as [[] [] [] [] [] [] [] []]; intros H; try discriminate H;
    repeat split; discriminate.
Qed.

Lemma substring_in_range (s : string) (a b : Z) :
  0 <= a <= b -> b <= JsString.length s ->
  JsString.substring s a b = String.substring (Z.to_nat a) (Z.to_nat (b - a)) s.
Proof.
  intros Ha Hb. unfold JsString.substring, JsString.clamp.
  f_equal; f_equal; lia.
Qed.

Lemma substring_middle (a b c : string) :
  String.substring (String.length a) (String.length b) (a +:+ b +:+ c) = b.
Proof.
  induction a as [|x a IH]; [exact (substring_0_append b c)|].
  rewrite append_cons. exact IH.
Qed.

Lemma substring_full (s : string) : String.substring 0 (String.length s) s = s.
Proof. rewrite <- (append_nil_r s) at 2. apply substring_0_append. Qed.

(** The text between a prefix and a suffix. *)
Lemma substring_between (a b c : string) :
  JsString.substring (a +:+ b +:+ c) (JsString.length a)
    (JsString.length (a +:+ b +:+ c) - JsString.length c) = b.
Proof.
  rewrite substring_in_range.
  - unfold JsString.length. rewrite !length_append.
    replace (Z.to_nat (Z.of_nat (String.length a))) with (String.length a) by lia.
    replace (Z.to_nat _) with (String.length b) by lia.
    apply substring_middle.
  - unfold JsString.length. rewrite !length_append. lia.
  - unfold JsString.length. lia.
Qed.

Lemma endsWith_append (a b : string) : JsString.endsWith (a +:+ b) b = true.
Proof.
  unfold JsString.endsWith. apply andb_true_iff. split.
  - apply Z.leb_le. unfold JsString.length. rewrite length_append. lia.
  - apply String.eqb_eq.
    pose proof (substring_between a b "") as H. rewrite !append_nil_r in H.
    replace (JsString.length (a +:+ b) - JsString.length b) with (JsString.length a)
      by (unfold JsString.length; rewrite length_append; lia).
    change (JsString.length "") with 0 in H. rewrite Z.sub_0_r in H. exact H.
Qed.

Lemma wordsThenClose_append (name : string) :
  JsString.allWord name = true -> JsString.wordsThenClose (name +:+ "]") = true.
Proof.
  induction name as [|c name IH]; [reflexivity|].
  cbn [JsString.allWord]. intros H. apply andb_true_iff in H as [Hc Hname].
  rewrite append_cons. cbn [JsString.wordsThenClose].
  rewrite Hc, (IH Hname). apply orb_true_r.
Qed.

Lemma wordThenClose_append (name : string) :
  JsString.isWord name = true -> JsString.wordThenClose (name +:+ "]") = true.
Proof.
  destruct name as [|c name]; [discriminate|]. cbn [JsString.isWord].
  intros H. apply andb_true_iff in H as [Hc Hname].
  rewrite append_cons. cbn [JsString.wordThenClose].
  rewrite Hc, (wordsThenClose_append name Hname). reflexivity.
Qed.

(** A word is a literal. *)
Lemma classify_word (s : string) :
  JsString.isWord s = true -> classify s = Some (Path (Literal s)).
Proof.
  destruct s as [|c r]; [discriminate|]. intros H.
  assert (JsString.isWordChar c = true) as Hc
    by (cbn in H; apply andb_true_iff in H; tauto).
  unfold classify. rewrite H.
  destruct c as [[] [] [] [] [] [] [] []]; try discriminate Hc; reflexivity.
Qed.

(** A word in brackets is a dynamic parameter. *)
Lemma classify_dynamic (name : string) :
  JsString.isWord name = true ->
  classify ("[" +:+ name +:+ "]") = Some (Path (DynamicParam name)).
Proof.
  intros H.
  pose proof (substring_between "[" name "]") as Hsub.
  change (JsString.length "[") with 1 in Hsub.
  change (JsString.length "]") with 1 in Hsub.
  assert (JsString.matchesDynamic ("[" +:+ name +:+ "]") = true) as Hdyn
    by exact (wordThenClose_append name H).
  destruct name as [|c name]; [discriminate|].
  assert (JsString.isWordChar c = true) as Hc
    by (cbn in H; apply andb_true_iff in H; tauto).
  assert (JsString.startsWith ("[" +:+ String c name +:+ "]") "[[" = false
          /\ JsString.matchesRest ("[" +:+ String c name +:+ "]") = false) as [Hopt Hrest].
  { clear -Hc. destruct c as [[] [] [] [] [] [] [] []]; try discriminate Hc;
      split; reflexivity. }
  unfold classify. rewrite Hopt, Hrest, Hdyn, Hsub. reflexivity.
Qed.

(** A word behind three dots in brackets is a rest parameter, kept with
    its brackets. *)
Lemma classify_rest (name : string) :
  JsString.isWord name = true ->
  classify ("[..." +:+ name +:+ "]") = Some (Path (RestParam ("[..." +:+ name +:+ "]"))).
Proof.
  intros H.
  pose proof (rest_parameter_name name) as Hsub.
  assert (JsString.matchesRest ("[..." +:+ name +:+ "]") = true) as Hrest
    by exact (wordThenClose_append name H).
  destruct name as [|c name]; [discriminate|].
  unfold classify. rewrite Hrest, Hsub. reflexivity.
Qed.

(** Any text in double brackets that is not empty and does not begin with
    three dots is an optional parameter. *)
Lemma classify_optional (name : string) :
  name <> "" -> JsString.startsWith name "..." = false ->
  classify ("[[" +:+ name +:+ "]]") = Some (Path (OptionalParam name)).
Proof.
  intros Hne Hdots.
  pose proof (substring_between "[[" name "]]") as Hsub.
  pose proof (endsWith_append ("[[" +:+ name) "]]") as Hends.
  rewrite append_assoc in Hends.
  change (JsString.length "[[") with 2 in Hsub.
  change (JsString.length "]]") with 2 in Hsub.
  assert ((5 <=? JsString.length ("[[" +:+ name +:+ "]]")) = true) as Hlen.
  { apply Z.leb_le. unfold JsString.length. rewrite !length_append. cbn [String.length].
    destruct name; [destruct Hne; reflexivity|]. cbn [String.length]. lia. }
  unfold classify. rewrite Hsub, Hends, Hlen, Hdots.
  destruct (String.eqb_spec name "") as [->|_]; [destruct Hne; reflexivity|].
  change ("[[" +:+ name +:+ "]]") with (String "[" (String "[" (name +:+ "]]"))).
  unfold JsString.startsWith. cbn. rewrite prefix_nil. reflexivity.
Qed.

End TokenFacts.

Section TokenInversion.

Lemma prefix_app (p s : string) :
  String.prefix p s = true -> exists r, s = p +:+ r.
Proof.
  revert s. induction p as [|c p IH]; intros s H.
  - exists s. reflexivity.
  - destruct s as [|d s]; [discriminate H|]. cbn in H.
    destruct (ascii_dec c d) as [->|_]; [|discriminate H].
    destruct (IH s H) as [r ->]. exists r. reflexivity.
Qed.

Lemma substring_split (s : string) (k : nat) :
  (k <= String.length s)%nat ->
  s = String.substring 0 k s +:+ String.substring k (String.length s - k) s.
Proof.
  revert k. induction s as [|c s IH]; intros k Hk.
  - destruct k; [reflexivity|cbn in Hk; lia].
  - destruct k as [|k].
    + cbn [String.substring]. rewrite Nat.sub_0_r.
      change (String.length (String c s)) with (S (String.length s)).
      cbn [String.substring]. rewrite substring_full. reflexivity.
    + cbn [String.substring String.length]. rewrite append_cons. f_equal.
      apply IH. cbn in Hk. lia.
Qed.

Lemma matchesDynamic_shape (s : string) :
  JsString.matchesDynamic s = true ->
  exists name, s = "[" +:+ name +:+ "]" /\ JsString.isWord name = true.
Proof.
  unfold JsString.matchesDynamic. destruct s as [|c0 r]; [discriminate|].
  destruct c0 as [[] [] [] [] [] [] [] []]; try discriminate.
  destruct r as [|c r]; [discriminate|]. cbn [JsString.wordThenClose].
  intros H. apply andb_true_iff in H as [Hc Hr].
  apply wordsThenClose_shape in Hr as (name & -> & Hname).
  exists (String c name). split; [reflexivity|]. cbn. rewrite Hc, Hname. reflexivity.
Qed.

(** The text of a string in double brackets, of five characters or more. *)
Lemma optional_shape (s : string) :
  JsString.startsWith s "[[" = true ->
  JsString.endsWith s "]]" = true ->
  5 <= JsString.length s ->
  s = "[[" +:+ JsString.substring s 2 (JsString.length s - 2) +:+ "]]".
Proof.
  intros Hstart Hend Hlen.
  apply prefix_app in Hstart as [r ->].
  unfold JsString.endsWith in Hend. apply andb_true_iff in Hend as [_ Hend].
  apply String.eqb_eq in Hend.
  change ("[[" +:+ r) with (String "[" (String "[" r)) in *.
  unfold JsString.length in *. cbn [String.length] in *.
  rewrite substring_in_range in Hend by (unfold JsString.length; cbn [String.length]; lia).
  rewrite substring_in_range by (unfold JsString.length; cbn [String.length]; lia).
  assert (2 <= String.length r)%nat as Hr by lia.
  replace (Z.to_nat _) with (S (S (String.length r - 2))) in Hend by lia.
  replace (Z.to_nat _) with 2%nat in Hend by lia.
  replace (Z.to_nat 2) with 2%nat by lia.
  replace (Z.to_nat _) with (String.length r - 2)%nat by lia.
  cbn [String.substring] in *.
  rewrite append_cons. do 2 f_equal.
  pose proof (substring_split r (String.length r - 2)) as Hsplit.
  replace (String.length r - (String.length r - 2))%nat with 2%nat in Hsplit by lia.
  rewrite Hend in Hsplit. apply Hsplit. lia.
Qed.

End TokenInversion.

Ltac classify_cases s :=
  unfold classify;
  let Hplus := fresh "Hplus" in
  destruct (JsString.startsWith s "+") eqn:Hplus;
  [ let H := fresh in
    intros H; exfalso;
    eapply (classify_plus_not_path s _ Hplus);
    rewrite (classify_plus s Hplus); exact H
  | repeat match goal with
           | |- context [if ?b then _ else _] => destruct b eqn:?
           end;
    intros [= <-] ].

Section TokenOrigins.

Lemma classify_literal_inv (s text : string) :
  classify s = Some (Path (Literal text)) -> text = s /\ JsString.isWord s = true.
Proof. classify_cases s; auto. Qed.

Lemma classify_dynamic_inv (s name : string) :
  classify s = Some (Path (DynamicParam name)) ->
  s = "[" +:+ name +:+ "]" /\ JsString.isWord name = true.
Proof.
  classify_cases s;
    match goal with
    | H : JsString.matchesDynamic _ = true |- _ =>
        apply matchesDynamic_shape in H as (w & -> & Hw)
    end;
    pose proof (substring_between "[" w "]") as Hsub;
    change (JsString.length "[") with 1 in Hsub;
    change (JsString.length "]") with 1 in Hsub;
    rewrite Hsub; auto.
Qed.

Lemma classify_optional_inv (s name : string) :
  classify s = Some (Path (OptionalParam name)) ->
  s = "[[" +:+ name +:+ "]]" /\ name <> "" /\ JsString.startsWith name "..." = false.
Proof.
  classify_cases s;
    repeat match goal with
           | H : _ && _ = true |- _ => apply andb_true_iff in H as [? ?]
           | H : negb _ = true |- _ => apply negb_true_iff in H
           | H : (_ <=? _) = true |- _ => apply Z.leb_le in H
           end;
    (split; [apply optional_shape; assumption|]);
    (split; [apply String.eqb_neq; assumption|assumption]).
Qed.

Lemma classify_rest_inv (s raw : string) :
  classify s = Some (Path (RestParam raw)) ->
  raw = s /\ exists name, s = "[..." +:+ name +:+ "]" /\ JsString.isWord name = true.
Proof.
  intros H. pose proof (classify_rest_shape s raw H) as Hshape.
  assert (raw = s) as -> by (revert H; classify_cases s; reflexivity).
  split; [reflexivity|exact Hshape].
Qed.

Lemma classify_handle_inv (s : string) (h : HandleSegment) :
  classify s = Some (Handle h) -> s = HandleSegment_token h.
Proof.
  intros H. pose proof (classify_handle_plus s h H) as Hplus.
  rewrite (classify_plus s Hplus) in H.
  destruct (JsString.split "." s) as [|name [|ext [|? ?]]] eqn:E; try discriminate H.
  apply split_two in E.
  destruct (Extension_of_string ext) as [e|] eqn:Ee; [|discriminate H].
  apply Extension_of_string_text in Ee. subst ext s.
  destruct (String.eqb_spec name "+server") as [->|_]; [injection H as <-; reflexivity|].
  destruct (String.eqb_spec name "+page") as [->|_]; [injection H as <-; reflexivity|].
  discriminate H.
Qed.

Lemma classify_handle_token (h : HandleSegment) :
  classify (HandleSegment_token h) = Some (Handle h).
Proof. destruct h as [[]|[]]; reflexivity. Qed.

End TokenOrigins.

(** X3: a component is a Literal exactly when it is a word (letters,
    digits and underscores, at least one), and the literal is the
    component itself. *)
Theorem classify_literal_iff (s text : string) :
  classify s = Some (Path (Literal text))
  <-> text = s /\ JsString.isWord s = true.
Proof.
  split; [apply classify_literal_inv|].
  intros [-> H]. apply classify_word, H.
Qed.

(** X4: a component is a DynamicParam exactly when it is a word in
    brackets, and the parameter is named by the word. *)
Theorem classify_dynamic_iff (s name : string) :
  classify s = Some (Path (DynamicParam name))
  <-> s = "[" +:+ name +:+ "]" /\ JsString.isWord name = true.
Proof.
  split; [apply classify_dynamic_inv|].
  intros [-> H]. apply classify_dynamic, H.
Qed.

(** X5: a component is an OptionalParam exactly when it is a text in
    double brackets that is not empty and does not begin with three dots;
    the text need not be a word. *)
Theorem classify_optional_iff (s name : string) :
  classify s = Some (Path (OptionalParam name))
  <-> s = "[[" +:+ name +:+ "]]" /\ name <> ""
      /\ JsString.startsWith name "..." = false.
Proof.
  split; [apply classify_optional_inv|].
  intros (-> & Hne & Hdots). apply classify_optional; assumption.
Qed.

(** X6: a component is a RestParam exactly when it is a word behind three
    dots in brackets, and the segment keeps the whole component. *)
Theorem classify_rest_iff (s raw : string) :
  classify s = Some (Path (RestParam raw))
  <-> raw = s
      /\ exists name, s = "[..." +:+ name +:+ "]" /\ JsString.isWord name = true.
Proof.
  split; [apply classify_rest_inv|].
  intros (-> & name & -> & H). apply classify_rest, H.
Qed.

(** ** Printing and parsing *)

Section RoundTrip.

Lemma allWord_slashFree (s : string) :
  JsString.allWord s = true -> JsString.count "/" s = 0%nat.
Proof.
  induction s as [|c s IH]; [reflexivity|]. cbn [JsString.allWord JsString.count].
  intros H. apply andb_true_iff in H as [Hc Hs].
  destruct (isWordChar_not_special c Hc) as (_ & _ & _ & Hslash & _).
  destruct (Ascii.eqb_spec c "/") as [E|_]; [destruct (Hslash E)|]. apply IH, Hs.
Qed.

Lemma isWord_slashFree (s : string) :
  JsString.isWord s = true -> s <> "" /\ JsString.count "/" s = 0%nat.
Proof.
  destruct s as [|c s]; [discriminate|]. intros H.
  split; [discriminate|]. apply allWord_slashFree. exact H.
Qed.

Lemma token_classified (seg : Segment) :
  wellFormed seg -> classify (Segment_token seg) = Some seg.
Proof.
  destruct seg as [[text|name|name|raw]|h]; cbn [wellFormed Segment_token PathSegment_token].
  - apply classify_word.
  - apply classify_dynamic.
  - intros (Hne & Hdots & _). apply classify_optional; assumption.
  - intros (name & -> & H). apply classify_rest, H.
  - intros _. apply classify_handle_token.
Qed.

Lemma token_component (seg : Segment) :
  wellFormed seg ->
  Segment_token seg <> "" /\ JsString.count "/" (Segment_token seg) = 0%nat.
Proof.
  destruct seg as [[text|name|name|raw]|h]; cbn [wellFormed Segment_token PathSegment_token].
  - apply isWord_slashFree.
  - intros H. apply isWord_slashFree in H as [_ H]. split; [discriminate|].
    rewrite !count_append, H. reflexivity.
  - intros (_ & _ & H). split; [discriminate|]. rewrite !count_append, H. reflexivity.
  - intros (name & -> & H). apply isWord_slashFree in H as [_ H]. split; [discriminate|].
    rewrite !count_append, H. reflexivity.
  - intros _. destruct h as [[]|[]]; split; (discriminate || reflexivity).
Qed.

Lemma split_slashFree_one (sep : ascii) (s : string) :
  JsString.count sep s = 0%nat -> JsString.split sep s = [s].
Proof.
  induction s as [|c s IH]; [reflexivity|]. intros H.
  apply count_cons_zero in H as [Hc Hs].
  cbn [JsString.split]. rewrite Hc, (IH Hs). reflexivity.
Qed.

Lemma split_concat (tokens : list string) :
  tokens <> [] ->
  Forall (fun t => JsString.count "/" t = 0%nat) tokens ->
  JsString.split "/" (String.concat "/" tokens) = tokens.
Proof.
  intros Hne H. induction H as [|t ts Ht Hts IH]; [destruct Hne; reflexivity|].
  destruct ts as [|t' ts].
  - cbn [String.concat]. apply split_slashFree_one, Ht.
  - change (String.concat "/" (t :: t' :: ts))
      with (t +:+ String "/" (String.concat "/" (t' :: ts))).
    rewrite split_app, (split_slashFree_one _ _ Ht), IH by discriminate. reflexivity.
Qed.

Lemma segmentStrings_concat (tokens : list string) :
  Forall (fun t => t <> "" /\ JsString.count "/" t = 0%nat) tokens ->
  segmentStrings (String.concat "/" tokens) = tokens.
Proof.
  intros H. rewrite segmentStrings_split.
  destruct tokens as [|t ts]; [reflexivity|].
  rewrite split_concat; [|discriminate|].
  - induction H as [|x xs [Hx _] _ IH]; [reflexivity|].
    cbn [List.filter]. destruct (String.eqb_spec x "") as [E|_]; [destruct (Hx E)|].
    cbn. f_equal. exact IH.
  - eapply Forall_impl; [exact H|]. intros x [_ Hx]. exact Hx.
Qed.

Lemma classified_token (s : string) (seg : Segment) :
  JsString.count "/" s = 0%nat ->
  classify s = Some seg -> Segment_token seg = s /\ wellFormed seg.
Proof.
  intros Hfree H. destruct seg as [[text|name|name|raw]|h];
    cbn [wellFormed Segment_token PathSegment_token].
  - apply classify_literal_inv in H as [-> H]. auto.
  - apply classify_dynamic_inv in H as [-> H]. auto.
  - apply classify_optional_inv in H as (-> & Hne & Hdots).
    repeat split; try assumption.
    rewrite !count_append in Hfree. cbn in Hfree. lia.
  - apply classify_rest_inv in H as (-> & name & -> & H). eauto.
  - apply classify_handle_inv in H. auto.
Qed.

End RoundTrip.

(** X7: printing then parsing: the tokens of well-formed segments, joined
    by slashes, parse back to the segments. *)
Theorem parse_tokens (segs : list Segment) :
  Forall wellFormed segs ->
  extractSegments (String.concat "/" (map Segment_token segs)) = Some segs.
Proof.
  intros H. rewrite extractSegments_classifyAll, segmentStrings_concat.
  - unfold classifyAll. induction H as [|seg segs Hseg _ IH]; [reflexivity|].
    cbn [map]. rewrite (token_classified seg Hseg). cbn.
    destruct (existsb isNull (map classify (map Segment_token segs))); [discriminate IH|].
    injection IH as ->. reflexivity.
  - induction H as [|seg segs Hseg _ IH]; constructor; [|exact IH].
    apply token_component, Hseg.
Qed.

Lemma parse_tokens_witness :
  extractSegments
    (String.concat "/"
       (map Segment_token
          [Path (Literal "products"); Path (DynamicParam "productId");
           Path (OptionalParam "tab"); Path (RestParam "[...rest]");
           Handle (PageHandle jsx)]))
  = Some [Path (Literal "products"); Path (DynamicParam "productId");
          Path (OptionalParam "tab"); Path (RestParam "[...rest]");
          Handle (PageHandle jsx)].
Proof.
  apply parse_tokens. repeat constructor; try discriminate.
  exists "rest". split; reflexivity.
Defined.

(** X8: parsing then printing: the segments of a parse are well formed and
    their tokens are the non-empty components of the path, in order. *)
Theorem tokens_of_parse (path : string) (segs : list Segment) :
  extractSegments path = Some segs ->
  Forall wellFormed segs /\ map Segment_token segs = segmentStrings path.
Proof.
  intros H. apply extractSegments_classified in H.
  assert (forall s, In s (segmentStrings path) -> JsString.count "/" s = 0%nat) as Hfree
    by (intros s; apply segmentStrings_slashFree).
  revert Hfree. induction H as [|s seg cs segs' Hs _ IH]; intros Hfree.
  - split; [constructor|reflexivity].
  - destruct (classified_token s seg (Hfree s (or_introl eq_refl)) Hs) as [Htok Hwf].
    destruct IH as [IHwf IHtok]; [intros x Hx; apply Hfree; right; exact Hx|].
    split; [constructor; assumption|]. cbn [map]. rewrite Htok, IHtok. reflexivity.
Qed.

Lemma tokens_of_parse_witness :
  Forall wellFormed [Path (Literal "users"); Path (DynamicParam "userId")]
  /\ map Segment_token [Path (Literal "users"); Path (DynamicParam "userId")]
     = segmentStrings "/users//[userId]/".
Proof.
  apply (tokens_of_parse "/users//[userId]/"). reflexivity.
Defined.

(** ** The outcomes of route extraction *)

(** X9: [extractRoute] has three outcomes, decided by the parse: it throws
    exactly when the parse is rejected; it returns the absence exactly
    when the parse is empty or ends in a path segment; it returns the
    parse exactly when the parse ends in a handle segment. *)
Theorem extractRoute_outcomes (path : string) :
  (extractRoute path = Throw TypeError <-> extractSegments path = None)
  /\ (extractRoute path = Normal None
      <-> exists segs, extractSegments path = Some segs
                       /\ (segs = [] \/ exists pre p, segs = pre ++ [Path p]))
  /\ (forall route : Route,
        extractRoute path = Normal (Some route)
        <-> extractSegments path = Some route
            /\ exists pre h, route = pre ++ [Handle h]).
Proof.
  unfold extractRoute.
  destruct (extractSegments path) as [segs|].
  2: { split; [split; reflexivity|]. split.
       - split; [discriminate|]. intros (segs & E & _). discriminate E.
       - intros route. split; [discriminate|]. intros [E _]. discriminate E. }
  unfold at_last. destruct (last segs) as [seg|] eqn:Hlast.
  - apply last_Some in Hlast as [pre ->].
    replace (Z.of_nat (List.length (pre ++ [seg])) =? 0) with false
      by (rewrite length_app; cbn; symmetry; apply Z.eqb_neq; lia).
    destruct seg as [p|h].
    + replace (negb _ && negb _) with true by (destruct p; reflexivity). cbn.
      split; [split; discriminate|]. split.
      * split; [intros _; exists (pre ++ [Path p]); eauto|reflexivity].
      * intros route. split; [discriminate|].
        intros ([= <-] & pre' & h & E). apply app_inj_tail in E as [_ E]. discriminate E.
    + replace (negb _ && negb _) with false by (destruct h; reflexivity). cbn.
      split; [split; discriminate|]. split.
      * split; [discriminate|].
        intros (segs & [= <-] & [E|(pre' & p & E)]).
        -- destruct pre; discriminate E.
        -- apply app_inj_tail in E as [_ E]. discriminate E.
      * intros route. split.
        -- intros [= <-]. eauto.
        -- intros ([= <-] & _). reflexivity.
  - apply last_None in Hlast as ->. cbn.
    split; [split; discriminate|]. split.
    + split; [intros _; exists []; auto|reflexivity].
    + intros route. split; [discriminate|].
      intros ([= <-] & pre & h & E). destruct pre; discriminate E.
Qed.

(** ** Dispatch patterns of parsed routes *)

Section PatternShape.

Lemma replaceDoubleSlash_leading (s : string) :
  JsString.startsWith (JsString.replaceDoubleSlash (String "/" s)) "/" = true.
Proof.
  cbn [JsString.replaceDoubleSlash]. destruct s as [|c s]; [reflexivity|].
  destruct (Ascii.eqb "/" "/" && Ascii.eqb c "/");
    unfold JsString.startsWith; cbn; apply prefix_nil.
Qed.

Lemma segmentsToPath_leading (segments : list Segment) :
  JsString.startsWith (segmentsToPath segments) "/" = true.
Proof.
  unfold segmentsToPath. destruct segments as [|seg segs]; [reflexivity|].
  change (Z.of_nat (List.length (seg :: segs)) =? 0) with false. cbv iota.
  apply (replaceDoubleSlash_leading
           (JsString.join "/" (map patternComponent (seg :: segs)))).
Qed.

End PatternShape.

(** X11: the pattern component of a parsed rest parameter is its name
    between a colon and a star: the name is recovered from the kept token
    [[...name]]. *)
Theorem rest_component (s raw : string) :
  classify s = Some (Path (RestParam raw)) ->
  exists name,
    s = "[..." +:+ name +:+ "]" /\ JsString.isWord name = true
    /\ patternComponent (Path (RestParam raw)) = Some (":" +:+ name +:+ "*").
Proof.
  intros H. apply classify_rest_inv in H as (-> & name & -> & Hname).
  exists name. repeat split; [exact Hname|apply patternComponent_rest].
Qed.

Lemma rest_component_witness :
  exists name,
    "[...filePath]" = "[..." +:+ name +:+ "]" /\ JsString.isWord name = true
    /\ patternComponent (Path (RestParam "[...filePath]")) = Some (":" +:+ name +:+ "*").
Proof. apply (rest_component "[...filePath]" "[...filePath]"). reflexivity. Defined.

Lemma segmentsToPath_parsed_witness :
  segmentsToPath (map Path [Literal "files"; RestParam "[...filePath]"])
  = "/" +:+ JsString.join "/"
              (map patternComponent (map Path [Literal "files"; RestParam "[...filePath]"])).
Proof.
  apply (segmentsToPath_parsed "files/[...filePath]/+server.ts"
           [Literal "files"; RestParam "[...filePath]"] (ServerHandle ts)).
  reflexivity.
Defined.

(** ** What a build registers and how it fails *)

Section BuildFacts.

Context (platform : Platform).

Lemma pageHandle_Success (module : gmap string Value) (pattern file : string)
    (router router' : HttpRouter) :
  pageHandle platform module pattern file router = Success router' ->
  exists content, router' = router ++ [pageEntry pattern content].
Proof.
  unfold pageHandle.
  destruct (export module "default") as [| | | |s|[result|raised]| |]; cbn;
    try (intros [= <-]; eauto; fail).
  - destruct result; intros [= <-]; eauto.
  - destruct (match raised with VError _ => _ | _ => _ end); discriminate.
Qed.

Lemma pageHandle_Failure (module : gmap string Value) (pattern file : string)
    (router : HttpRouter) (err : BuildError) :
  pageHandle platform module pattern file router = Failure err ->
  exists message, err = InvalidModuleError message /\ JsString.includes message file.
Proof.
  unfold pageHandle.
  destruct (export module "default") as [| | | |s|[result|raised]| |]; cbn;
    try (intros [= <-]; eexists; (split; [reflexivity|]); apply includes_middle).
  - destruct result; intros [= <-]; eexists; (split; [reflexivity|]);
      apply includes_middle.
  - destruct (match raised with VError _ => _ | _ => _ end); intros [= <-].
    eexists. split; [reflexivity|]. apply includes_middle.
Qed.

(** The outcome of validating a loaded module. *)
Lemma validateAndRegister_outcome (h : HandleSegment) (module : gmap string Value)
    (pattern file : string) (router : HttpRouter) :
  match validateAndRegister platform (Handle h) module pattern file router with
  | Success router' =>
      exists added, router' = router ++ added /\ added <> []
                    /\ Forall (fun entry => path entry = pattern) added
  | Failure err =>
      exists message, err = InvalidModuleError message /\ JsString.includes message file
  | Die _ => True
  end.
Proof.
  destruct h as [e|e].
  - rewrite validateAndRegister_server, serverHandle_outcome.
    destruct (methodEntries module pattern allMethods) as [|entry entries] eqn:E.
    + destruct (validHandler (export module "default")).
      * exists [catchAllEntry module pattern]. repeat split; [discriminate|].
        repeat constructor.
      * eexists. split; [reflexivity|]. apply includes_end.
    + exists (entry :: entries). repeat split; [discriminate|].
      rewrite <- E. unfold methodEntries. apply Forall_forall.
      intros x Hx. apply list_elem_of_In, in_map_iff in Hx as (m & <- & _). reflexivity.
  - rewrite validateAndRegister_page.
    destruct (Js.truthy (export module "default")).
    + destruct (pageHandle platform module pattern file router) as [router'|err|d] eqn:E.
      * apply pageHandle_Success in E as [content ->].
        exists [pageEntry pattern content]. repeat split; [discriminate|].
        repeat constructor.
      * apply pageHandle_Failure in E. exact E.
      * exact I.
    + eexists. split; [reflexivity|]. apply includes_middle.
Qed.

(** The outcome of one file of the listing. *)
Lemma processFile_outcome (dir rel : string) (router : HttpRouter) :
  match processFile platform dir router rel with
  | Success router' =>
      exists added,
        router' = router ++ added
        /\ Forall (fun entry => JsString.startsWith (path entry) "/" = true) added
        /\ (added = [] <-> extractRoute rel = Normal None)
  | Failure err =>
      (exists cause, err = ImportError cause (join platform dir rel)
                     /\ import platform (join platform dir rel) = inl cause)
      \/ (exists message, err = InvalidModuleError message
                          /\ JsString.includes message (join platform dir rel))
  | Die _ => True
  end.
Proof.
  unfold processFile.
  destruct (extractRoute rel) as [[route|]|e] eqn:Hroute.
  - apply extractRoute_Some in Hroute as Hshape. destruct Hshape as [_ (pre & h & ->)].
    rewrite at_last_snoc, removelast_last.
    destruct (import platform (join platform dir rel)) as [cause|module] eqn:Himport.
    + left. eauto.
    + pose proof (validateAndRegister_outcome h module (segmentsToPath pre)
                    (join platform dir rel) router) as H.
      destruct (validateAndRegister platform (Handle h) module (segmentsToPath pre)
                  (join platform dir rel) router) as [router'|err|d].
      * destruct H as (added & -> & Hne & Hpaths). exists added.
        split; [reflexivity|]. split.
        -- eapply Forall_impl; [exact Hpaths|]. intros entry ->.
           apply segmentsToPath_leading.
        -- split; [intros E; destruct (Hne E)|discriminate].
      * right. exact H.
      * exact I.
  - exists []. rewrite app_nil_r. repeat split. constructor.
  - exact I.
Qed.

End BuildFacts.

(** X12: the loop over the listing only appends to the router: a build
    that succeeds keeps the entries it started from, in front, and every
    entry it adds is on a pattern with a leading slash; it adds nothing
    exactly when no listed path is a route. *)
Theorem build_appends (platform : Platform) (dir : string)
    (files : list string) (router router' : HttpRouter) :
  processFiles platform dir router files = Success router' ->
  exists added,
    router' = router ++ added
    /\ Forall (fun entry => JsString.startsWith (path entry) "/" = true) added
    /\ (added = [] <-> forall rel, In rel files -> extractRoute rel = Normal None).
Proof.
  revert router. induction files as [|rel rest IH]; intros router H.
  - injection H as <-. exists []. rewrite app_nil_r.
    repeat split; [constructor|intros _ rel []].
  - cbn [processFiles] in H.
    pose proof (processFile_outcome platform dir rel router) as Hfile.
    destruct (processFile platform dir router rel) as [mid|err|d]; try discriminate H.
    destruct Hfile as (added1 & -> & Hslash1 & Hnil1).
    destruct (IH _ H) as (added2 & -> & Hslash2 & Hnil2).
    exists (added1 ++ added2). rewrite app_assoc. split; [reflexivity|]. split.
    + apply Forall_app. split; assumption.
    + split.
      * intros E. apply app_eq_nil in E as [E1 E2].
        intros rel' [<-|Hin]; [apply Hnil1, E1|apply (proj1 Hnil2 E2), Hin].
      * intros Hall.
        rewrite (proj2 Hnil1 (Hall rel (or_introl eq_refl))).
        apply Hnil2. intros rel' Hin. apply Hall. right. exact Hin.
Qed.

Lemma build_appends_witness :
  exists added,
    [pageEntry "/" "Hello"; pageEntry "/about" "About"]
    = [pageEntry "/" "Hello"] ++ added
    /\ Forall (fun entry => JsString.startsWith (path entry) "/" = true) added
    /\ (added = []
        <-> forall rel, In rel ["about"; "about/+page.tsx"] ->
                        extractRoute rel = Normal None).
Proof.
  apply (build_appends
           (Fixture.platform "/routes" [("about/+page.tsx", inr (Fixture.page "About"))])
           "/routes" ["about"; "about/+page.tsx"] [pageEntry "/" "Hello"]).
  reflexivity.
Defined.

(** X13: a listing without routes (an empty directory, directories only)
    builds the router it started from, whatever the imports would give:
    no file is imported. *)
Theorem listing_without_routes (platform : Platform) (dir : string)
    (files : list string) (router : HttpRouter) :
  (forall rel, In rel files -> extractRoute rel = Normal None) ->
  processFiles platform dir router files = Success router.
Proof.
  induction files as [|rel rest IH]; intros H; [reflexivity|].
  cbn [processFiles]. unfold processFile.
  rewrite (H rel (or_introl eq_refl)). apply IH.
  intros rel' Hin. apply H. right. exact Hin.
Qed.

Lemma listing_without_routes_witness :
  processFiles (Fixture.platform "/routes" []) "/routes" HttpRouter.empty
    ["api"; "api/health"; "users/[userId]"]
  = Success HttpRouter.empty.
Proof.
  apply listing_without_routes.
  intros rel [<-|[<-|[<-|[]]]]; reflexivity.
Defined.

(** X14: a listed path that the parser rejects ends the build with a
    defect, the [TypeError] of [extractRoute], once the loop reaches it:
    neither a router nor a failure of the error channel is returned. *)
Theorem rejected_path_is_a_defect (platform : Platform) (scanDir : string)
    (before after : list string) (rel : string) (router : HttpRouter) :
  let dir := resolve platform scanDir in
  readDirectory platform dir = inr (before ++ rel :: after) ->
  processFiles platform dir HttpRouter.empty before = Success router ->
  extractSegments rel = None ->
  fromFiles platform scanDir = Die TypeError.
Proof.
  intros dir Hlist Hbefore Hrel. unfold fromFiles. fold dir.
  rewrite Hlist, processFiles_app, Hbefore. cbn [processFiles].
  rewrite (processFile_rejected platform dir rel router Hrel). reflexivity.
Qed.

Lemma rejected_path_is_a_defect_witness :
  fromFiles
    (Fixture.platform "/routes"
       [("+page.tsx", inr (Fixture.page "Hello")); ("README.md", inr ∅)])
    "/routes"
  = Die TypeError.
Proof.
  apply (rejected_path_is_a_defect
           (Fixture.platform "/routes"
              [("+page.tsx", inr (Fixture.page "Hello")); ("README.md", inr ∅)])
           "/routes" ["+page.tsx"] [] "README.md" [pageEntry "/" "Hello"]);
    reflexivity.
Defined.

(** X15: the first file that does not build decides the outcome: a
    listing that fails, or ends with a defect, does so whatever is listed
    after it. *)
Theorem first_failure_wins (platform : Platform) (dir : string)
    (router : HttpRouter) (before after : list string) :
  (forall err, processFiles platform dir router before = Failure err ->
               processFiles platform dir router (before ++ after) = Failure err)
  /\ (forall d, processFiles platform dir router before = Die d ->
                processFiles platform dir router (before ++ after) = Die d).
Proof.
  split; intros x H; rewrite processFiles_app, H; reflexivity.
Qed.

Section BuildOutcomes.

Context (platform : Platform).

Lemma processFiles_outcome (dir : string) (files : list string) (router : HttpRouter) :
  match processFiles platform dir router files with
  | Success _ => True
  | Failure err =>
      exists rel, In rel files
        /\ ((exists cause, err = ImportError cause (join platform dir rel)
                           /\ import platform (join platform dir rel) = inl cause)
            \/ (exists message, err = InvalidModuleError message
                                /\ JsString.includes message (join platform dir rel)))
  | Die _ => True
  end.
Proof.
  revert router. induction files as [|rel rest IH]; intros router; [exact I|].
  cbn [processFiles].
  pose proof (processFile_outcome platform dir rel router) as Hfile.
  destruct (processFile platform dir router rel) as [mid|err|d].
  - specialize (IH mid).
    destruct (processFiles platform dir mid rest) as [r|err|d]; [exact I| |exact I].
    destruct IH as (rel' & Hin & H). exists rel'. split; [right; exact Hin|exact H].
  - exists rel. split; [left; reflexivity|exact Hfile].
  - exact I.
Qed.

End BuildOutcomes.

(** X16: where the failures of a build come from.  A filesystem error is
    the failed listing; an ImportError is the failed import of a listed
    file, with its cause and its joined path; an InvalidModuleError has a
    message that names the joined path of a listed file. *)
Theorem build_failure_origin (platform : Platform) (scanDir : string)
    (err : BuildError) :
  let dir := resolve platform scanDir in
  fromFiles platform scanDir = Failure err ->
  (exists e, err = FilesystemError e /\ readDirectory platform dir = inl e)
  \/ (exists files rel,
        readDirectory platform dir = inr files /\ In rel files
        /\ ((exists cause, err = ImportError cause (join platform dir rel)
                           /\ import platform (join platform dir rel) = inl cause)
            \/ (exists message, err = InvalidModuleError message
                                /\ JsString.includes message (join platform dir rel)))).
Proof.
  intros dir. unfold fromFiles. fold dir.
  destruct (readDirectory platform dir) as [e|files]; [intros [= <-]; left; eauto|].
  pose proof (processFiles_outcome platform dir files HttpRouter.empty) as H.
  intros E. rewrite E in H. destruct H as (rel & Hin & H).
  right. exists files, rel. auto.
Qed.

Lemma build_failure_origin_witness :
  (exists e, InvalidModuleError
               "No valid route handlers (method-specific functions or default export) found in /routes/api/+server.ts"
             = FilesystemError e
             /\ readDirectory (Fixture.platform "/routes" [("api/+server.ts", inr ∅)])
                  "/routes" = inl e)
  \/ (exists files rel,
        readDirectory (Fixture.platform "/routes" [("api/+server.ts", inr ∅)])
          "/routes" = inr files
        /\ In rel files
        /\ ((exists cause,
                InvalidModuleError
                  "No valid route handlers (method-specific functions or default export) found in /routes/api/+server.ts"
                = ImportError cause (Fixture.joinPath "/routes" rel)
                /\ Fixture.importFrom [("api/+server.ts", inr ∅)] "/routes"
                     (Fixture.joinPath "/routes" rel) = inl cause)
            \/ (exists message,
                   InvalidModuleError
                     "No valid route handlers (method-specific functions or default export) found in /routes/api/+server.ts"
                   = InvalidModuleError message
                   /\ JsString.includes message (Fixture.joinPath "/routes" rel)))).
Proof.
  apply (build_failure_origin
           (Fixture.platform "/routes" [("api/+server.ts", inr ∅)]) "/routes").
  reflexivity.
Defined.

(** ** Pages and server modules *)

(** X18: a page whose default export is truthy but neither a string nor a
    function (an object, a number, [true]) fails the build with the
    InvalidModuleError "is not a string or a function returning a string"
    for its file. *)
Theorem page_default_of_other_type (platform : Platform) (dir rel : string)
    (router : HttpRouter) (pre : list Segment) (e : Extension)
    (module : gmap string Value) :
  extractRoute rel = Normal (Some (pre ++ [Handle (PageHandle e)])) ->
  import platform (join platform dir rel) = inr module ->
  Js.truthy (export module "default") = true ->
  Js.typeof (export module "default") <> "string" ->
  Js.typeof (export module "default") <> "function" ->
  processFile platform dir router rel
  = Failure (InvalidModuleError
      ("Default export in " +:+ join platform dir rel
       +:+ " for +page.tsx is not a string or a function returning a string.")).
Proof.
  intros Hroute Himport Htruthy Hstring Hfunction.
  rewrite (processFile_loaded platform dir rel router pre _ module Hroute Himport).
  rewrite validateAndRegister_page, Htruthy. unfold pageHandle.
  destruct (export module "default"); try reflexivity;
    [destruct Hstring|destruct Hfunction]; reflexivity.
Qed.

Lemma page_default_of_other_type_witness :
  processFile
    (Fixture.platform "/routes" [("badtype2/+page.tsx", inr Fixture.objectDefault)])
    "/routes" HttpRouter.empty "badtype2/+page.tsx"
  = Failure (InvalidModuleError
      ("Default export in " +:+ "/routes/badtype2/+page.tsx"
       +:+ " for +page.tsx is not a string or a function returning a string.")).
Proof.
  apply (page_default_of_other_type
           (Fixture.platform "/routes" [("badtype2/+page.tsx", inr Fixture.objectDefault)])
           "/routes" "badtype2/+page.tsx" HttpRouter.empty
           [Path (Literal "badtype2")] tsx Fixture.objectDefault);
    (reflexivity || discriminate).
Defined.

(** X19: a page whose default export is a function that returns a string
    is built with that string as its content, for every string, the empty
    one included: the result of the call is tested by its type only. *)
Theorem page_function_content (platform : Platform) (dir rel : string)
    (router : HttpRouter) (pre : list Segment) (e : Extension)
    (module : gmap string Value) (content : string) :
  extractRoute rel = Normal (Some (pre ++ [Handle (PageHandle e)])) ->
  import platform (join platform dir rel) = inr module ->
  callable (export module "default") = true ->
  Js.call (export module "default") = Returns (VString content) ->
  processFile platform dir router rel
  = Success (router ++ [pageEntry (segmentsToPath pre) content]).
Proof.
  intros Hroute Himport Hcallable Hcall.
  rewrite (processFile_loaded platform dir rel router pre _ module Hroute Himport).
  rewrite validateAndRegister_page. unfold pageHandle.
  destruct (export module "default"); try discriminate Hcallable.
  cbn in *. rewrite Hcall. reflexivity.
Qed.

Lemma page_function_content_witness :
  processFile
    (Fixture.platform "/routes" [("blank/+page.tsx", inr Fixture.blankFunctionPage)])
    "/routes" HttpRouter.empty "blank/+page.tsx"
  = Success (HttpRouter.empty ++ [pageEntry (segmentsToPath [Path (Literal "blank")]) ""]).
Proof.
  apply (page_function_content
           (Fixture.platform "/routes" [("blank/+page.tsx", inr Fixture.blankFunctionPage)])
           "/routes" "blank/+page.tsx" HttpRouter.empty
           [Path (Literal "blank")] tsx Fixture.blankFunctionPage "");
    reflexivity.
Defined.

Section ServerEntries.

Lemma NoDup_allMethods : List.NoDup allMethods.
Proof.
  unfold allMethods.
  repeat (constructor; [cbn; intuition discriminate|]). constructor.
Qed.

Lemma methodEntries_methods (module : gmap string Value) (pattern : string) :
  List.NoDup (map method (methodEntries module pattern allMethods)).
Proof.
  unfold methodEntries. rewrite map_map. cbn [methodEntry method].
  apply List.NoDup_map_NoDup_ForallPairs.
  - intros a b _ _ [= ->]. reflexivity.
  - apply List.NoDup_filter, NoDup_allMethods.
Qed.

Lemma methodEntries_agree (m1 m2 : gmap string Value) (pattern : string) :
  (forall key, In key httpMethods -> export m1 key = export m2 key) ->
  methodEntries m1 pattern allMethods = methodEntries m2 pattern allMethods.
Proof.
  intros H. unfold methodEntries, methodEntry, allMethods. cbn [List.filter Method_name].
  rewrite !(H "GET"), !(H "POST"), !(H "PUT"), !(H "DELETE"), !(H "PATCH"),
    !(H "OPTIONS"), !(H "HEAD") by (cbn; tauto).
  repeat match goal with
         | |- context [if ?b then _ else _] => destruct b
         end; cbn [map Method_name];
    rewrite ?(H "GET"), ?(H "POST"), ?(H "PUT"), ?(H "DELETE"), ?(H "PATCH"),
      ?(H "OPTIONS"), ?(H "HEAD") by (cbn; tauto); reflexivity.
Qed.

End ServerEntries.

(** X20: what a server file registers when it builds: at least one entry
    and at most seven, all on the route's pattern, never two with the same
    method, and each with an export of the module that is a valid
    handler. *)
Theorem server_file_entries (platform : Platform) (dir rel : string)
    (router router' : HttpRouter) (pre : list Segment) (e : Extension)
    (module : gmap string Value) :
  extractRoute rel = Normal (Some (pre ++ [Handle (ServerHandle e)])) ->
  import platform (join platform dir rel) = inr module ->
  processFile platform dir router rel = Success router' ->
  exists added,
    router' = router ++ added
    /\ (1 <= List.length added <= 7)%nat
    /\ List.NoDup (map method added)
    /\ Forall (fun entry =>
                 path entry = segmentsToPath pre
                 /\ exists key, handler entry = Exported (export module key)
                                /\ validHandler (export module key) = true) added.
Proof.
  intros Hroute Himport.
  rewrite (processFile_loaded platform dir rel router pre _ module Hroute Himport).
  rewrite validateAndRegister_server, serverHandle_outcome.
  pose proof (methodEntries_methods module (segmentsToPath pre)) as Hnodup.
  assert (List.length (methodEntries module (segmentsToPath pre) allMethods) <= 7)%nat
    as Hlen.
  { unfold methodEntries. rewrite length_map.
    etransitivity; [apply List.filter_length_le|]. reflexivity. }
  assert (Forall (fun entry =>
                    path entry = segmentsToPath pre
                    /\ exists key, handler entry = Exported (export module key)
                                   /\ validHandler (export module key) = true)
            (methodEntries module (segmentsToPath pre) allMethods)) as Hall.
  { apply Forall_forall. intros x Hx.
    apply list_elem_of_In, methodEntries_In in Hx as (m & _ & Hm & ->).
    split; [reflexivity|]. exists (Method_name m). auto. }
  destruct (methodEntries module (segmentsToPath pre) allMethods) as [|entry entries].
  - destruct (validHandler (export module "default")) eqn:Hdefault; [|discriminate].
    intros [= <-]. exists [catchAllEntry module (segmentsToPath pre)].
    split; [reflexivity|]. split; [cbn; lia|]. split.
    + repeat constructor. intros [].
    + repeat constructor. exists "default". auto.
  - intros [= <-]. exists (entry :: entries).
    split; [reflexivity|]. split; [cbn in *; lia|]. auto.
Qed.

Lemma server_file_entries_witness :
  exists added,
    [methodEntry Fixture.badGetWithPost "/api/badmethod" POST] = HttpRouter.empty ++ added
    /\ (1 <= List.length added <= 7)%nat
    /\ List.NoDup (map method added)
    /\ Forall (fun entry =>
                 path entry
                 = segmentsToPath [Path (Literal "api"); Path (Literal "badmethod")]
                 /\ exists key,
                      handler entry = Exported (export Fixture.badGetWithPost key)
                      /\ validHandler (export Fixture.badGetWithPost key) = true) added.
Proof.
  apply (server_file_entries
           (Fixture.platform "/routes"
              [("api/badmethod/+server.ts", inr Fixture.badGetWithPost)])
           "/routes" "api/badmethod/+server.ts" HttpRouter.empty _
           [Path (Literal "api"); Path (Literal "badmethod")] ts Fixture.badGetWithPost);
    reflexivity.
Defined.

(** X21: the validation of a module reads its default export and its
    seven exports named after HTTP methods, and nothing else: two modules
    that agree on these are validated alike (the early check of the keys
    of the module changes no outcome). *)
Theorem exports_that_matter (platform : Platform) (h : HandleSegment)
    (m1 m2 : gmap string Value) (pattern file : string) (router : HttpRouter) :
  (forall key, In key ("default" :: httpMethods) -> export m1 key = export m2 key) ->
  validateAndRegister platform (Handle h) m1 pattern file router
  = validateAndRegister platform (Handle h) m2 pattern file router.
Proof.
  intros H. destruct h as [e|e].
  - rewrite !validateAndRegister_server, !serverHandle_outcome.
    rewrite (methodEntries_agree m1 m2 pattern) by (intros key Hk; apply H; right; exact Hk).
    unfold catchAllEntry. rewrite (H "default") by (left; reflexivity). reflexivity.
  - rewrite !validateAndRegister_page. unfold pageHandle.
    rewrite (H "default") by (left; reflexivity). reflexivity.
Qed.

Lemma exports_that_matter_witness :
  validateAndRegister (Fixture.platform "/routes" []) (Handle (ServerHandle ts))
    Fixture.badGetWithPost "/api" "/routes/api/+server.ts" HttpRouter.empty
  = validateAndRegister (Fixture.platform "/routes" []) (Handle (ServerHandle ts))
      Fixture.badGetWithPostAndMore "/api" "/routes/api/+server.ts" HttpRouter.empty.
Proof.
  apply exports_that_matter.
  intros key [<-|[<-|[<-|[<-|[<-|[<-|[<-|[<-|[]]]]]]]]]; reflexivity.
Defined.

(** ** Walking a directory *)

Section WalkFacts.

Lemma walkPaths_parsed (paths : list string) :
  (forall path, In path paths -> extractSegments path <> None) ->
  walkPaths paths = (omap routeOf paths, Normal tt).
Proof.
  induction paths as [|path rest IH]; intros H; [reflexivity|].
  cbn [walkPaths omap list_omap]. unfold routeOf at 1.
  destruct (extractRoute path) as [[route|]|e] eqn:E.
  - rewrite IH by (intros p Hp; apply H; right; exact Hp). reflexivity.
  - apply IH. intros p Hp. apply H. right. exact Hp.
  - exfalso. apply (H path (or_introl eq_refl)).
    unfold extractRoute in E. destruct (extractSegments path); [|reflexivity].
    destruct (_ || _); discriminate E.
Qed.

Lemma walkPaths_app (before after : list string) :
  (forall path, In path before -> extractSegments path <> None) ->
  walkPaths (before ++ after)
  = (omap routeOf before ++ (walkPaths after).1, (walkPaths after).2).
Proof.
  induction before as [|path rest IH]; intros H.
  - cbn. destruct (walkPaths after); reflexivity.
  - cbn [app walkPaths omap list_omap]. unfold routeOf at 1.
    rewrite IH by (intros p Hp; apply H; right; exact Hp).
    destruct (extractRoute path) as [[route|]|e] eqn:E; [reflexivity..|].
    exfalso. apply (H path (or_introl eq_refl)).
    unfold extractRoute in E. destruct (extractSegments path); [|reflexivity].
    destruct (_ || _); discriminate E.
Qed.

End WalkFacts.

(** X23: when every listed path parses, the walk of a directory ends
    normally and yields, in the order of the listing, the parse of each
    path that ends in a handle segment and nothing else. *)
Theorem walk_yields_the_routes (readdir : string -> Value + list string)
    (dir : string) (paths : list string) :
  readdir dir = inr paths ->
  (forall path, In path paths -> extractSegments path <> None) ->
  walkRoutesDirectory readdir dir = (omap routeOf paths, Normal tt)
  /\ (forall route, In route (omap routeOf paths) <->
        exists path, In path paths /\ extractSegments path = Some route
                     /\ exists pre h, route = pre ++ [Handle h]).
Proof.
  intros Hdir Hparsed. unfold walkRoutesDirectory. rewrite Hdir.
  split; [apply walkPaths_parsed, Hparsed|].
  intros route. rewrite <- list_elem_of_In, list_elem_of_omap. split.
  - intros (path & Hin & Hroute). exists path. split; [apply list_elem_of_In, Hin|].
    unfold routeOf in Hroute.
    destruct (extractRoute path) as [[r|]|e] eqn:E; try discriminate Hroute.
    injection Hroute as ->. apply extractRoute_Some, E.
  - intros (path & Hin & Hsegs & pre & h & ->). exists path.
    split; [apply list_elem_of_In, Hin|].
    unfold routeOf, extractRoute, at_last. rewrite Hsegs, last_snoc.
    replace (Z.of_nat (List.length (pre ++ [Handle h])) =? 0) with false
      by (rewrite length_app; cbn; symmetry; apply Z.eqb_neq; lia).
    destruct h; reflexivity.
Qed.

Lemma walk_yields_the_routes_witness :
  walkRoutesDirectory (fun _ => inr ["about"; "about/+page.tsx"; "api/+server.ts"])
    "/routes"
  = (omap routeOf ["about"; "about/+page.tsx"; "api/+server.ts"], Normal tt)
  /\ (forall route,
        In route (omap routeOf ["about"; "about/+page.tsx"; "api/+server.ts"]) <->
        exists path, In path ["about"; "about/+page.tsx"; "api/+server.ts"]
                     /\ extractSegments path = Some route
                     /\ exists pre h, route = pre ++ [Handle h]).
Proof.
  apply (walk_yields_the_routes
           (fun _ => inr ["about"; "about/+page.tsx"; "api/+server.ts"]) "/routes").
  - reflexivity.
  - intros path [<-|[<-|[<-|[]]]]; discriminate.
Defined.

(** X24: the walk ends at the first listed path that the parser rejects:
    it has then yielded the routes of the paths before it, and it throws
    the [TypeError] of [extractRoute]; nothing listed after is looked
    at. *)
Theorem walk_stops_at_rejected_path (readdir : string -> Value + list string)
    (dir : string) (before after : list string) (rejected : string) :
  readdir dir = inr (before ++ rejected :: after) ->
  (forall path, In path before -> extractSegments path <> None) ->
  extractSegments rejected = None ->
  walkRoutesDirectory readdir dir = (omap routeOf before, Throw TypeError).
Proof.
  intros Hdir Hbefore Hrejected. unfold walkRoutesDirectory. rewrite Hdir.
  rewrite (walkPaths_app before (rejected :: after) Hbefore).
  cbn [walkPaths]. rewrite (extractRoute_rejected rejected Hrejected).
  cbn. rewrite app_nil_r. reflexivity.
Qed.

Lemma walk_stops_at_rejected_path_witness :
  walkRoutesDirectory (fun _ => inr ["+page.tsx"; "README.md"; "api/+server.ts"])
    "/routes"
  = (omap routeOf ["+page.tsx"], Throw TypeError).
Proof.
  apply (walk_stops_at_rejected_path
           (fun _ => inr ["+page.tsx"; "README.md"; "api/+server.ts"]) "/routes"
           ["+page.tsx"] ["api/+server.ts"] "README.md").
  - reflexivity.
  - intros path [<-|[]]. discriminate.
  - reflexivity.
Defined.

(** ** The root and the collapse of slashes *)

Section RootFacts.

Lemma count_le_length (c : ascii) (s : string) :
  (JsString.count c s <= String.length s)%nat.
Proof.
  induction s as [|d s IH]; [reflexivity|]. cbn.
  destruct (Ascii.eqb d c); lia.
Qed.

Lemma split_all_empty (sep : ascii) (s : string) :
  Forall (fun t => t = "") (JsString.split sep s)
  <-> JsString.count sep s = String.length s.
Proof.
  induction s as [|c s IH]; [split; [reflexivity|repeat constructor]|].
  cbn [JsString.split JsString.count String.length].
  pose proof (count_le_length sep s) as Hle.
  destruct (Ascii.eqb c sep).
  - rewrite Forall_cons. split.
    + intros [_ H]. apply IH in H. lia.
    + intros H. split; [reflexivity|]. apply IH. lia.
  - destruct (JsString.split sep s) as [|h t] eqn:E; [destruct (split_not_nil _ _ E)|].
    rewrite Forall_cons. split; [intros [H _]; discriminate H|lia].
Qed.

Lemma filter_nonempty_nil (l : list string) :
  List.filter (fun s => negb (String.eqb s "")) l = [] <-> Forall (fun t => t = "") l.
Proof.
  induction l as [|x l IH]; [split; [constructor|reflexivity]|].
  cbn [List.filter]. rewrite Forall_cons.
  destruct (String.eqb_spec x "") as [->|N]; cbn.
  - rewrite IH. tauto.
  - split; [discriminate|]. intros [E _]. destruct (N E).
Qed.

Lemma replaceDoubleSlash_head (c : ascii) (r : string) :
  exists r', JsString.replaceDoubleSlash (String c r) = String c r'.
Proof.
  destruct r as [|c' r]; [exists ""; reflexivity|].
  cbn [JsString.replaceDoubleSlash].
  destruct (Ascii.eqb_spec c "/") as [->|_]; cbn [andb]; [|eauto].
  destruct (Ascii.eqb c' "/"); eauto.
Qed.

Lemma hasDoubleSlash_cons (c c' : ascii) (r : string) :
  hasDoubleSlash (String c (String c' r))
  = (Ascii.eqb c "/" && Ascii.eqb c' "/") || hasDoubleSlash (String c' r).
Proof. reflexivity. Qed.

Lemma replaceDoubleSlash_cons (c c' : ascii) (r : string) :
  JsString.replaceDoubleSlash (String c (String c' r))
  = if Ascii.eqb c "/" && Ascii.eqb c' "/"
    then String "/" (JsString.replaceDoubleSlash r)
    else String c (JsString.replaceDoubleSlash (String c' r)).
Proof. reflexivity. Qed.

Lemma collapse_no_double (n : nat) (s : string) :
  (String.length s <= n)%nat ->
  hasTripleSlash s = false ->
  hasDoubleSlash (JsString.replaceDoubleSlash s) = false.
Proof.
  revert s. induction n as [|n IH]; intros s Hlen Htriple.
  - destruct s; [reflexivity|cbn in Hlen; lia].
  - destruct s as [|c [|c' r]]; [reflexivity..|].
    rewrite replaceDoubleSlash_cons.
    destruct (Ascii.eqb c "/" && Ascii.eqb c' "/") eqn:Hboth.
    + assert (hasDoubleSlash (JsString.replaceDoubleSlash r) = false) as Hr.
      { apply IH; [cbn in Hlen; lia|].
        destruct r as [|c'' r]; [reflexivity|].
        cbn [hasTripleSlash] in Htriple. rewrite Hboth in Htriple.
        apply orb_false_iff in Htriple as [_ Htriple].
        destruct r as [|c3 r]; [reflexivity|].
        cbn [hasTripleSlash] in Htriple |- *.
        apply orb_false_iff in Htriple as [_ Htriple].
        destruct r as [|c4 r]; [reflexivity|].
        cbn [hasTripleSlash] in *. exact Htriple. }
      destruct r as [|c'' r]; [reflexivity|].
      cbn [hasTripleSlash] in Htriple. rewrite Hboth in Htriple.
      apply orb_false_iff in Htriple as [Hc'' _]. cbn [andb] in Hc''.
      destruct (replaceDoubleSlash_head c'' r) as [r' E]. rewrite E in Hr |- *.
      rewrite hasDoubleSlash_cons, Hc'', andb_false_r. exact Hr.
    + assert (hasDoubleSlash (JsString.replaceDoubleSlash (String c' r)) = false) as Hr.
      { apply IH; [cbn in Hlen |- *; lia|].
        destruct r as [|c'' r]; [reflexivity|].
        cbn [hasTripleSlash] in Htriple.
        apply orb_false_iff in Htriple as [_ Htriple]. exact Htriple. }
      destruct (replaceDoubleSlash_head c' r) as [r' E]. rewrite E in Hr |- *.
      rewrite hasDoubleSlash_cons, Hboth. exact Hr.
Qed.

End RootFacts.

(** X25: the empty sequence is the parse of exactly the paths made of
    slashes only, the empty path included. *)
Theorem empty_parse_iff (path : string) :
  extractSegments path = Some []
  <-> JsString.count "/" path = String.length path.
Proof.
  rewrite <- split_all_empty, <- filter_nonempty_nil, <- segmentStrings_split.
  rewrite extractSegments_classifyAll. unfold classifyAll.
  destruct (segmentStrings path) as [|c cs].
  - split; reflexivity.
  - split; [|discriminate].
    destruct (existsb isNull (map classify (c :: cs))) eqn:E; [discriminate|].
    cbn in E |- *. destruct (classify c); [discriminate|discriminate E].
Qed.

(** X26: the single pass of the replacement leaves no double slash in a
    pattern whose joined components hold no three slashes in a row. *)
Theorem pattern_without_double_slash (segments : list Segment) :
  hasTripleSlash ("/" +:+ JsString.join "/" (map patternComponent segments)) = false ->
  hasDoubleSlash (segmentsToPath segments) = false.
Proof.
  intros H. unfold segmentsToPath.
  destruct (Z.of_nat (List.length segments) =? 0); [reflexivity|].
  eapply collapse_no_double; [reflexivity|exact H].
Qed.

Lemma pattern_without_double_slash_witness :
  hasDoubleSlash
    (segmentsToPath [Path (Literal "a"); Path (Literal ""); Path (Literal "b")])
  = false.
Proof. apply pattern_without_double_slash. reflexivity. Defined.
